(** * SailPoint IdentityNow "enable account" action: a shallow embedding

    The repository ships one action in three revisions:

    - the domain revision of [src/script.mjs] (second half of the file):
      [enableAccount] builds its address with the platform's [URL] class from
      a bare tenant domain, [invoke] validates its inputs, and [error] carries
      an in-process recovery protocol (back off, retry);
    - the utils revision of [src/script.mjs] (first half of the file), which
      takes a base address, resolves templates and credentials through
      [@sgnl-actions/utils], and whose [error] handler only rethrows;
    - the bundle [dist/index.js], the utils revision with the helpers inlined
      and without template resolution.

    JavaScript values are embedded as the inductive [JsVal]; strings are Rocq
    strings holding the UTF-8 bytes of a well-formed JavaScript string (a lone
    surrogate has no such encoding and is outside the model); numbers are the
    integers.  Handlers are computations in a small monad [M] that reads an
    explicit [World] (network, clock, base-address parser) and produces a
    completion (normal return or thrown error) together with the ordered list
    of effects it performed: console lines, timer waits and requests.

    A [Response] is what the handlers read of it: [ok], [status], and the
    outcomes of [json()] and [text()], each of which may resolve or reject
    (the repository's tests mock the two independently; [fetch] itself lets
    [text()] reject once [json()] has consumed the body).  The texts of the
    TypeErrors the engine raises are those of V8; nothing depends on them. *)

From Stdlib Require Import ZArith NArith List String Ascii Lia Bool.
From stdpp Require Import gmap strings list fin_maps pretty.
Import ListNotations.
Open Scope string_scope.
Open Scope list_scope.
Open Scope Z_scope.
Set Warnings "-register-all".

(** ** JavaScript values *)

Inductive JsVal : Type :=
| JUndefined
| JNull
| JBool (b : bool)
| JNum (n : Z)
| JStr (s : string)
| JArr (items : list JsVal)
| JObj (fields : list (string * JsVal)).

(** ToBoolean, as used by [if (x)], [!x] and [x || y]. *)
Definition truthy (v : JsVal) : bool :=
  match v with
  | JUndefined | JNull => false
  | JBool b => b
  | JNum n => negb (n =? 0)
  | JStr s => negb (String.eqb s EmptyString)
  | JArr _ | JObj _ => true
  end.

(** [a || b] *)
Definition js_or (a b : JsVal) : JsVal := if truthy a then a else b.

Fixpoint join_commas (l : list string) : string :=
  match l with
  | [] => EmptyString
  | [x] => x
  | x :: rest => x +:+ "," +:+ join_commas rest
  end.

(** ToString, as applied by template literals and by [encodeURIComponent].
    An array joins its elements with commas, [undefined] and [null] elements
    contributing nothing.  This is the conversion where JavaScript's own
    returns: [converts] below says for which values that is, and a number is
    written with all its digits, as JavaScript does for the integers it holds
    exactly. *)
Fixpoint ToString (v : JsVal) : string :=
  match v with
  | JUndefined => "undefined"
  | JNull => "null"
  | JBool true => "true"
  | JBool false => "false"
  | JNum n => pretty n
  | JStr s => s
  | JArr items =>
      join_commas
        ((fix elements (l : list JsVal) : list string :=
            match l with
            | [] => []
            | (JUndefined | JNull) :: rest => EmptyString :: elements rest
            | x :: rest => ToString x :: elements rest
            end) items)
  | JObj _ => "[object Object]"
  end.

(** [typeof v === 'string'] *)
Definition is_string (v : JsVal) : bool :=
  match v with JStr _ => true | _ => false end.

(** [v !== undefined && v !== null] *)
Definition not_nullish (v : JsVal) : bool :=
  match v with JUndefined | JNull => false | _ => true end.

(** [v === n] for a number literal [n] (strict equality: no coercion). *)
Definition strict_eq_num (v : JsVal) (n : Z) : bool :=
  match v with JNum m => m =? n | _ => false end.

(** [[a, b, ...].includes(v)] for an array literal of numbers. *)
Definition array_includes (l : list Z) (v : JsVal) : bool :=
  existsb (strict_eq_num v) l.

(** Own-property lookup in an object literal (keys are unique in a JavaScript
    object; the first binding is the one read). *)
Fixpoint assoc (k : string) (fs : list (string * JsVal)) : option JsVal :=
  match fs with
  | [] => None
  | (k', v) :: rest => if String.eqb k k' then Some v else assoc k rest
  end.

(** Whether ToString returns.  No value of this type is callable, so an
    object with an own [toString] property has no method to convert it with
    and the conversion throws a TypeError; an array converts its elements. *)
Fixpoint converts (v : JsVal) : bool :=
  match v with
  | JArr items => forallb converts items
  | JObj fs => match assoc "toString" fs with Some _ => false | None => true end
  | _ => true
  end.

(** ** Strings *)

(** [s.startsWith(p)] *)
Fixpoint startsWith (s p : string) {struct p} : bool :=
  match p with
  | EmptyString => true
  | String c p' =>
      match s with
      | EmptyString => false
      | String d s' => Ascii.eqb c d && startsWith s' p'
      end
  end.

(** [s.includes(sub)] *)
Fixpoint includes (s sub : string) : bool :=
  startsWith s sub ||
  match s with
  | EmptyString => false
  | String _ s' => includes s' sub
  end.

(** [s.endsWith('/')] *)
Fixpoint endsWithSlash (s : string) : bool :=
  match s with
  | EmptyString => false
  | String c EmptyString => Ascii.eqb c "/"
  | String _ s' => endsWithSlash s'
  end.

(** [s.slice(0, -1)] *)
Fixpoint dropLast (s : string) : string :=
  match s with
  | EmptyString => EmptyString
  | String _ EmptyString => EmptyString
  | String c s' => String c (dropLast s')
  end.

Definition in_range (lo hi c : ascii) : bool :=
  (N_of_ascii lo <=? N_of_ascii c)%N && (N_of_ascii c <=? N_of_ascii hi)%N.

Definition is_digit (c : ascii) : bool := in_range "0" "9" c.
Definition is_alpha (c : ascii) : bool := in_range "a" "z" c || in_range "A" "Z" c.

Fixpoint char_in (c : ascii) (set : string) : bool :=
  match set with
  | EmptyString => false
  | String d rest => Ascii.eqb c d || char_in c rest
  end.

(** ** [encodeURIComponent]

    ECMAScript keeps the characters of uriUnescaped (letters, digits and the
    marks [- _ . ! ~ * ' ( )]) and replaces every other character by the
    percent-escapes of its UTF-8 bytes, in upper-case hexadecimal.  On the
    UTF-8 bytes of a string that is a byte-by-byte map. *)

Definition uriMark : string := "-_.!~*'()".

Definition uriUnescaped (c : ascii) : bool :=
  is_alpha c || is_digit c || char_in c uriMark.

Definition hexDigits : string := "0123456789ABCDEF".

Definition hexDigit (n : N) : ascii :=
  match String.get (N.to_nat n) hexDigits with
  | Some c => c
  | None => "0"%char
  end.

Definition percentEncode (c : ascii) : string :=
  let n := N_of_ascii c in
  String "%" (String (hexDigit (n / 16)) (String (hexDigit (n mod 16)) EmptyString)).

Fixpoint encodeURIComponent (s : string) : string :=
  match s with
  | EmptyString => EmptyString
  | String c rest =>
      (if uriUnescaped c then String c EmptyString else percentEncode c)
      +:+ encodeURIComponent rest
  end.

(** The characters ECMAScript calls uriReserved, and the fragment mark.  The
    marks [! ' ( ) *], which later URI syntax also reserves, are among those
    [encodeURIComponent] leaves as they are. *)
Definition uriReserved : string := ";/?:@&=+$,#".

(** ** [JSON.stringify] *)

Definition dquote : ascii := "034"%char.
Definition backslash : ascii := "092"%char.

Definition lowerHexDigits : string := "0123456789abcdef".

Definition lowerHexDigit (n : N) : ascii :=
  match String.get (N.to_nat n) lowerHexDigits with
  | Some c => c
  | None => "0"%char
  end.

Definition JSON_escape_char (c : ascii) : string :=
  let n := N_of_ascii c in
  if Ascii.eqb c dquote then String backslash (String dquote EmptyString)
  else if Ascii.eqb c backslash then String backslash (String backslash EmptyString)
  else if (n =? 8)%N then String backslash "b"
  else if (n =? 9)%N then String backslash "t"
  else if (n =? 10)%N then String backslash "n"
  else if (n =? 12)%N then String backslash "f"
  else if (n =? 13)%N then String backslash "r"
  else if (n <? 32)%N then
    String backslash
      ("u00" +:+ String (lowerHexDigit (n / 16)) (String (lowerHexDigit (n mod 16)) EmptyString))
  else String c EmptyString.

Fixpoint JSON_escape (s : string) : string :=
  match s with
  | EmptyString => EmptyString
  | String c rest => JSON_escape_char c +:+ JSON_escape rest
  end.

Definition JSON_quote (s : string) : string :=
  String dquote (JSON_escape s) +:+ String dquote EmptyString.

(** [JSON.stringify v]; [None] stands for the JavaScript result [undefined].
    A property whose value serialises to [undefined] is left out; such an
    array element is written [null]. *)
Fixpoint JSON_stringify (v : JsVal) : option string :=
  match v with
  | JUndefined => None
  | JNull => Some "null"
  | JBool true => Some "true"
  | JBool false => Some "false"
  | JNum n => Some (pretty n)
  | JStr s => Some (JSON_quote s)
  | JArr items =>
      let elements :=
        (fix elements (l : list JsVal) : list string :=
           match l with
           | [] => []
           | x :: rest =>
               match JSON_stringify x with
               | None => "null" :: elements rest
               | Some t => t :: elements rest
               end
           end) items in
      Some ("[" +:+ join_commas elements +:+ "]")
  | JObj fs =>
      let members :=
        (fix members (fs : list (string * JsVal)) : list string :=
           match fs with
           | [] => []
           | (k, x) :: rest =>
               match JSON_stringify x with
               | None => members rest
               | Some t => (JSON_quote k +:+ ":" +:+ t) :: members rest
               end
           end) fs in
      Some ("{" +:+ join_commas members +:+ "}")
  end.

(** [JSON.stringify(obj)] for an object literal. *)
Definition JSON_stringify_object (fs : list (string * JsVal)) : string :=
  match JSON_stringify (JObj fs) with
  | Some s => s
  | None => EmptyString
  end.

(** ** [parseInt(s, 10)]

    Leading white space is skipped (the ASCII white space; the model does not
    skip the other Unicode spaces), an optional sign is read, then the longest
    run of decimal digits; no digit at all gives NaN.  The result is exact,
    where a JavaScript number rounds beyond 2^53. *)

Inductive JsNumber : Type :=
| NaN
| Num (n : Z).

Definition is_space (c : ascii) : bool :=
  let n := N_of_ascii c in
  (n =? 32)%N || ((9 <=? n)%N && (n <=? 13)%N).

Fixpoint skip_spaces (s : string) : string :=
  match s with
  | String c rest => if is_space c then skip_spaces rest else s
  | EmptyString => EmptyString
  end.

Definition digit_value (c : ascii) : Z := Z.of_N (N_of_ascii c) - 48.

Fixpoint read_digits (s : string) (acc : option Z) : option Z :=
  match s with
  | String c rest =>
      if is_digit c
      then read_digits rest
             (Some (10 * match acc with Some a => a | None => 0 end + digit_value c))
      else acc
  | EmptyString => acc
  end.

Definition parseInt (s : string) : JsNumber :=
  match skip_spaces s with
  | String "-" rest =>
      match read_digits rest None with Some n => Num (- n) | None => NaN end
  | String "+" rest =>
      match read_digits rest None with Some n => Num n | None => NaN end
  | t => match read_digits t None with Some n => Num n | None => NaN end
  end.

Definition NumberToString (n : JsNumber) : string :=
  match n with NaN => "NaN" | Num z => pretty z end.

(** ** The platform's [URL] class, as far as [enableAccount] uses it

    The domain revision calls [new URL(rel, base).toString()] with [rel] the
    path-absolute reference [/v3/accounts/<encoded id>/enable], which holds
    only letters, digits, uriMark characters, [%] and [/].  For such a
    reference the parser of the URL Standard keeps scheme, credentials, host
    and port of [base] and runs its path state over the segments of [rel]:
    a double-dot segment removes the last segment collected so far, a
    single-dot segment is skipped, anything else is appended (none of these
    characters is in the path percent-encode set). *)

Fixpoint split_on (c : ascii) (s : string) : list string :=
  match s with
  | EmptyString => [EmptyString]
  | String d rest =>
      if Ascii.eqb d c then EmptyString :: split_on c rest
      else match split_on c rest with
           | x :: xs => String d x :: xs
           | [] => [String d EmptyString]
           end
  end.

Definition is_single_dot (seg : string) : bool :=
  existsb (String.eqb seg) ["."; "%2e"; "%2E"].

Definition is_double_dot (seg : string) : bool :=
  existsb (String.eqb seg)
    [".."; ".%2e"; ".%2E"; "%2e."; "%2E."; "%2e%2e"; "%2e%2E"; "%2E%2e"; "%2E%2E"].

Fixpoint path_state (segs path : list string) : list string :=
  match segs with
  | [] => path
  | [seg] =>
      if is_double_dot seg then removelast path ++ [EmptyString]
      else if is_single_dot seg then path ++ [EmptyString]
      else path ++ [seg]
  | seg :: rest =>
      path_state rest
        (if is_double_dot seg then removelast path
         else if is_single_dot seg then path
         else path ++ [seg])
  end.

Fixpoint serialize_path (path : list string) : string :=
  match path with
  | [] => EmptyString
  | seg :: rest => "/" +:+ seg +:+ serialize_path rest
  end.

(** The pathname of [new URL(rel, base)] for a path-absolute [rel]. *)
Definition URL_pathname (rel : string) : string :=
  match rel with
  | String "/" rest => serialize_path (path_state (split_on "/" rest) [])
  | _ => rel
  end.

(** ** Errors, completions, requests and responses *)

Record JsError : Type := mkError {
  name : string;
  message : string;
  statusCode : JsVal
}.

(** [new Error(msg)] *)
Definition new_Error (msg : string) : JsError :=
  {| name := "Error"; message := msg; statusCode := JUndefined |}.

(** A TypeError raised by the engine (the message text is the engine's). *)
Definition TypeError (msg : string) : JsError :=
  {| name := "TypeError"; message := msg; statusCode := JUndefined |}.

Inductive Completion (A : Type) : Type :=
| Return (a : A)
| Throw (e : JsError).
Arguments Return {A} a.
Arguments Throw {A} e.

(** [v.k] for an identifier [k] that no primitive wrapper defines. *)
Definition get_prop (v : JsVal) (k : string) : Completion JsVal :=
  match v with
  | JUndefined | JNull =>
      Throw (TypeError ("Cannot read properties of " +:+ ToString v +:+ " (reading '" +:+ k +:+ "')"))
  | JObj fs => Return (match assoc k fs with Some x => x | None => JUndefined end)
  | _ => Return JUndefined
  end.

(** A value inside a template literal: ToString with its error path. *)
Definition template (v : JsVal) : Completion string :=
  if converts v then Return (ToString v)
  else Throw (TypeError "Cannot convert object to primitive value").

Record Request : Type := mkRequest {
  url : string;
  method : string;
  headers : list (string * string);
  body : string
}.

(** What the code reads of a fetch [Response]: the flag [ok], the numeric
    [status], and the outcomes of [json()] and [text()]. *)
Record Response : Type := mkResponse {
  ok : bool;
  status : Z;
  json : Completion JsVal;
  text : Completion string
}.

Inductive FetchOutcome : Type :=
| Resolved (r : Response)
| Rejected (e : JsError).

(** The environment of one handler invocation: the outcome of the n-th
    [fetch] call, the reading of the clock ([new Date().toISOString()]), and
    the platform's parse of an absolute base address, serialised without its
    path (scheme, credentials, host, port) or failing with a TypeError. *)
Record World : Type := mkWorld {
  fetch_outcome : nat -> Request -> FetchOutcome;
  now : string;
  base_origin : string -> Completion string
}.

Inductive Level : Type := Log | Warn | Error.

(** Observable effects: a console call (message and the extra argument, if
    any), a timer wait, a network request. *)
Inductive Event : Type :=
| EvConsole (level : Level) (msg : string) (arg : option JsVal)
| EvTimeout (ms : JsNumber)
| EvFetch (req : Request).

(** ** The effect monad *)

Record Run (A : Type) : Type := mkRun {
  outcome : Completion A;
  events : list Event;
  calls : nat
}.
Arguments mkRun {A}.
Arguments outcome {A}.
Arguments events {A}.
Arguments calls {A}.

Definition M (A : Type) : Type := World -> nat -> Run A.

Definition ret {A} (a : A) : M A :=
  fun _ n => mkRun (Return a) [] n.

Definition throw {A} (e : JsError) : M A :=
  fun _ n => mkRun (Throw e) [] n.

Definition bind {A B} (m : M A) (f : A -> M B) : M B :=
  fun w n =>
    let r := m w n in
    match outcome r with
    | Return a =>
        let r' := f a w (calls r) in
        mkRun (outcome r') (events r ++ events r') (calls r')
    | Throw e => mkRun (Throw e) (events r) (calls r)
    end.

(** [try { m } catch { h }] *)
Definition try_catch {A} (m : M A) (h : M A) : M A :=
  fun w n =>
    let r := m w n in
    match outcome r with
    | Return a => r
    | Throw _ =>
        let r' := h w (calls r) in
        mkRun (outcome r') (events r ++ events r') (calls r')
    end.

Definition lift {A} (c : Completion A) : M A :=
  fun _ n => mkRun c [] n.

Definition emit (e : Event) : M unit :=
  fun _ n => mkRun (Return tt) [e] n.

Definition console_log (msg : string) : M unit := emit (EvConsole Log msg None).
Definition console_warn (msg : string) (arg : JsVal) : M unit := emit (EvConsole Warn msg (Some arg)).
Definition console_error (msg : string) (arg : option JsVal) : M unit := emit (EvConsole Error msg arg).

(** [await new Promise(resolve => setTimeout(resolve, ms))].  The event
    records the delay handed to the timer. *)
Definition sleep (ms : JsNumber) : M unit := emit (EvTimeout ms).

(** [await fetch(url, init)].  The request recorded is the one handed to
    [fetch], its address the string as the code wrote it. *)
Definition fetch (req : Request) : M Response :=
  fun w n =>
    match fetch_outcome w n req with
    | Resolved r => mkRun (Return r) [EvFetch req] (S n)
    | Rejected e => mkRun (Throw e) [EvFetch req] (S n)
    end.

(** [new Date().toISOString()] *)
Definition Date_now : M string :=
  fun w n => mkRun (Return (now w)) [] n.

(** [new URL(rel, base).toString()] *)
Definition URL_href (rel base : string) : M string :=
  fun w n =>
    match base_origin w base with
    | Return origin => mkRun (Return (origin +:+ URL_pathname rel)) [] n
    | Throw e => mkRun (Throw e) [] n
    end.

Declare Scope js_scope.
Delimit Scope js_scope with js.
Notation "'let!' x ':=' m 'in' k" := (bind m (fun x => k))
  (at level 10, x name, m at level 100, k at level 200) : js_scope.
Notation "m ';;' k" := (bind m (fun _ => k))
  (at level 100, k at level 200, right associativity) : js_scope.
Open Scope js_scope.

(** A handler is run from a fresh call counter. *)
Definition run {A} (m : M A) (w : World) : Run A := m w 0%nat.

(** The requests sent, in order. *)
Fixpoint requests (tr : list Event) : list Request :=
  match tr with
  | [] => []
  | EvFetch r :: rest => r :: requests rest
  | _ :: rest => requests rest
  end.

(** The back-off waits performed, in order. *)
Fixpoint timeouts (tr : list Event) : list JsNumber :=
  match tr with
  | [] => []
  | EvTimeout ms :: rest => ms :: timeouts rest
  | _ :: rest => timeouts rest
  end.

(** ** Handler inputs *)

(** The [params] object, by the properties the handlers destructure; a
    property that is not supplied reads [JUndefined].  [error] is the failure
    the harness hands to the error entry point: an object with a string
    [message] and an optional [statusCode]. *)
Record Params : Type := mkParams {
  accountId : JsVal;
  address : JsVal;
  sailpointDomain : JsVal;
  externalVerificationId : JsVal;
  forceProvisioning : JsVal;
  reason : JsVal;
  error : JsError
}.

(** The [context] object: job data, and the optional key/value objects
    [environment] and [secrets]. *)
Record Context : Type := mkContext {
  data : JsVal;
  environment : option (gmap string string);
  secrets : option (gmap string string)
}.

Definition of_option (o : option string) : JsVal :=
  match o with Some s => JStr s | None => JUndefined end.

(** [context.environment?.k] *)
Definition env_var (context : Context) (k : string) : JsVal :=
  match environment context with
  | Some env => of_option (env !! k)
  | None => JUndefined
  end.

(** [context.secrets?.k] *)
Definition secret_opt (context : Context) (k : string) : JsVal :=
  match secrets context with
  | Some sec => of_option (sec !! k)
  | None => JUndefined
  end.

(** [context.secrets.k] *)
Definition secret (context : Context) (k : string) : Completion JsVal :=
  match secrets context with
  | Some sec => Return (of_option (sec !! k))
  | None => Throw (TypeError ("Cannot read properties of undefined (reading '" +:+ k +:+ "')"))
  end.

(** ** Code shared by the three revisions *)

(** The object [requestBody] of [enableAccount], after its two conditional
    assignments. *)
Definition requestBody (externalVerificationId forceProvisioning : JsVal)
  : list (string * JsVal) :=
  (if truthy externalVerificationId
   then [("externalVerificationId", externalVerificationId)] else [])
  ++
  (if not_nullish forceProvisioning
   then [("forceProvisioning", forceProvisioning)] else []).

(** [token.startsWith('Bearer ') ? token : `Bearer ${token}`] *)
Definition bearer (token : string) : string :=
  if startsWith token "Bearer " then token else "Bearer " +:+ token.

(** The constant [authHeader] of [enableAccount]; only a string has the
    method [startsWith]. *)
Definition authHeader (authToken : JsVal) : Completion string :=
  match authToken with
  | JStr token => Return (bearer token)
  | JUndefined | JNull =>
      Throw (TypeError ("Cannot read properties of " +:+ ToString authToken
                        +:+ " (reading 'startsWith')"))
  | _ => Throw (TypeError "authToken.startsWith is not a function")
  end.

(** The [fetch] call of [enableAccount]. *)
Definition post (target : string) (authorization : string)
    (requestBody : list (string * JsVal)) : M Response :=
  fetch {| url := target;
           method := "POST";
           headers := [("Authorization", authorization);
                       ("Accept", "application/json");
                       ("Content-Type", "application/json")];
           body := JSON_stringify_object requestBody |}.

(** The object returned after a successful response, with the fields a
    handler adds at the end. *)
Definition enabled_result (accountId responseData : JsVal) (fallback : string)
    (extra : list (string * JsVal)) : M JsVal :=
  let! id := lift (get_prop responseData "id") in
  let! taskId := (if truthy id then ret id else lift (get_prop responseData "taskId")) in
  let! msg := lift (get_prop responseData "message") in
  let! enabledAt := Date_now in
  ret (JObj ([("accountId", accountId);
              ("enabled", JBool true);
              ("taskId", taskId);
              ("message", js_or msg (JStr fallback));
              ("enabledAt", JStr enabledAt)] ++ extra)).

(** The [try] block of [invoke]'s error path: the message computed from a
    JSON error body. *)
Definition errorMessage_of_json (response : Response) (default : string) : M string :=
  let! errorBody := lift (json response) in
  let! detailCode := lift (get_prop errorBody "detailCode") in
  let! errorMessage :=
    (if truthy detailCode then
       let! trackingId := lift (get_prop errorBody "trackingId") in
       ret ("Failed to enable account: " +:+ ToString detailCode +:+ " - "
            +:+ ToString (js_or trackingId (JStr EmptyString)))
     else
       let! msg := lift (get_prop errorBody "message") in
       ret (if truthy msg then "Failed to enable account: " +:+ ToString msg
            else default)) in
  console_error "SailPoint API error response:" (Some errorBody) ;;
  ret errorMessage.

(** The [catch] block of [invoke]'s error path. *)
Definition errorMessage_of_text (response : Response) (default : string) : M string :=
  let! errorText := lift (text response) in
  console_error "Failed to parse error response" None ;;
  ret (if negb (String.eqb errorText EmptyString)
       then "Failed to enable account: " +:+ errorText
       else default).

(** [invoke] after an unsuccessful response: always throws. *)
Definition fail_response {A} (response : Response) : M A :=
  let statusCode := status response in
  let default := "Failed to enable account: HTTP " +:+ pretty statusCode in
  let! errorMessage :=
    try_catch (errorMessage_of_json response default)
              (errorMessage_of_text response default) in
  throw {| name := "Error"; message := errorMessage; statusCode := JNum statusCode |}.

(** [halt], the same in the three revisions.  The template literal of its
    console line converts [reason], then [accountId]. *)
Definition halt (params : Params) (_context : Context) : M JsVal :=
  let! reasonText := lift (template (reason params)) in
  let! accountText := lift (template (accountId params)) in
  console_log ("Account enable job is being halted (" +:+ reasonText
               +:+ ") for account " +:+ accountText) ;;
  let! haltedAt := Date_now in
  ret (JObj [("accountId", js_or (accountId params) (JStr "unknown"));
             ("reason", reason params);
             ("haltedAt", JStr haltedAt);
             ("cleanupCompleted", JBool true)]).

(** ** The domain revision *)

Module Domain.

Definition enableAccount (accountId sailpointDomain authToken
    externalVerificationId forceProvisioning : JsVal) : M Response :=
  let encodedAccountId := encodeURIComponent (ToString accountId) in
  let! url := URL_href ("/v3/accounts/" +:+ encodedAccountId +:+ "/enable")
                       ("https://" +:+ ToString sailpointDomain) in
  let requestBody := requestBody externalVerificationId forceProvisioning in
  let! authHeader := lift (authHeader authToken) in
  post url authHeader requestBody.

Definition invoke (params : Params) (context : Context) : M JsVal :=
  console_log ("Starting SailPoint IdentityNow account enable for account: "
               +:+ ToString (accountId params)) ;;
  if negb (truthy (accountId params)) || negb (is_string (accountId params)) then
    throw (new_Error "Invalid or missing accountId parameter")
  else if negb (truthy (sailpointDomain params)) || negb (is_string (sailpointDomain params)) then
    throw (new_Error "Invalid or missing sailpointDomain parameter")
  else if negb (truthy (secret_opt context "BEARER_AUTH_TOKEN")) then
    throw (new_Error "Missing required secret: BEARER_AUTH_TOKEN")
  else
    let! token := lift (secret context "BEARER_AUTH_TOKEN") in
    let! response := enableAccount (accountId params) (sailpointDomain params) token
                       (externalVerificationId params) (forceProvisioning params) in
    if ok response then
      let! responseData := lift (json response) in
      console_log ("Successfully initiated account enable for account "
                   +:+ ToString (accountId params)) ;;
      enabled_result (accountId params) responseData
        "Account enable operation initiated" []
    else fail_response response.

(** The two tests of the error entry point. *)
Definition isRateLimited (error : JsError) : bool :=
  strict_eq_num (statusCode error) 429
  || includes (message error) "429"
  || includes (message error) "rate limit".

Definition isServiceError (error : JsError) : bool :=
  array_includes [502; 503; 504] (statusCode error).

(** [parseInt(context.environment?.RATE_LIMIT_BACKOFF_MS || '30000', 10)] *)
Definition rateLimitBackoffMs (context : Context) : JsNumber :=
  parseInt (ToString (js_or (env_var context "RATE_LIMIT_BACKOFF_MS") (JStr "30000"))).

(** [parseInt(context.environment?.SERVICE_ERROR_BACKOFF_MS || '10000', 10)] *)
Definition serviceErrorBackoffMs (context : Context) : JsNumber :=
  parseInt (ToString (js_or (env_var context "SERVICE_ERROR_BACKOFF_MS") (JStr "10000"))).

(** The effects that open an [if] block of the error entry point: the
    announcement, the wait, the second announcement. *)
Definition backoff (waiting : string) (backoffMs : JsNumber) (accountId : JsVal)
    (retrying : string) : list Event :=
  [EvConsole Log (waiting +:+ NumberToString backoffMs +:+ "ms before retry") None;
   EvTimeout backoffMs;
   EvConsole Log ("Retrying account enable for account " +:+ ToString accountId
                  +:+ retrying) None].

(** One [if] block of the error entry point: wait, retry, and return the
    result if the retry succeeded; [None] when control falls out of the
    block. *)
Definition retry (params : Params) (context : Context)
    (waiting : string) (backoffMs : JsNumber) (retrying succeeded fallback method : string)
  : M (option JsVal) :=
  console_log (waiting +:+ NumberToString backoffMs +:+ "ms before retry") ;;
  sleep backoffMs ;;
  console_log ("Retrying account enable for account " +:+ ToString (accountId params)
               +:+ retrying) ;;
  let! token := lift (secret context "BEARER_AUTH_TOKEN") in
  let! retryResponse := enableAccount (accountId params) (sailpointDomain params) token
                          (externalVerificationId params) (forceProvisioning params) in
  if ok retryResponse then
    let! responseData := lift (json retryResponse) in
    console_log ("Successfully enabled account " +:+ ToString (accountId params)
                 +:+ succeeded) ;;
    let! result := enabled_result (accountId params) responseData fallback
                     [("recoveryMethod", JStr method)] in
    ret (Some result)
  else ret None.

Definition error (params : Params) (context : Context) : M JsVal :=
  let error := error params in
  let accountId := ToString (accountId params) in
  console_error ("Account enable failed for account " +:+ accountId +:+ ": "
                 +:+ message error) None ;;
  let rateLimitBackoffMs := rateLimitBackoffMs context in
  let serviceErrorBackoffMs := serviceErrorBackoffMs context in
  let! first :=
    (if isRateLimited error then
       retry params context
         "Rate limited by SailPoint API - waiting " rateLimitBackoffMs
         " after rate limit backoff" " after retry"
         "Account enable operation initiated after retry" "rate_limit_retry"
     else ret None) in
  match first with
  | Some result => ret result
  | None =>
      let! second :=
        (if isServiceError error then
           retry params context
             "SailPoint service temporarily unavailable - waiting " serviceErrorBackoffMs
             " after service interruption" " after service recovery"
             "Account enable operation initiated after service recovery" "service_retry"
         else ret None) in
      match second with
      | Some result => ret result
      | None =>
          console_error ("Unable to recover from error for account " +:+ accountId) None ;;
          throw (new_Error ("Unrecoverable error enabling account " +:+ accountId
                            +:+ ": " +:+ message error))
      end
  end.

End Domain.

(** ** The utils revision and the bundle

    [resolveJSONPathTemplates] and [getAuthorizationHeader] belong to the
    package [@sgnl-actions/utils]; both are taken as given.  The first returns
    the resolved parameters and a list of errors; the second is asynchronous
    and may itself use the network.  [getBaseURL] is embedded from the copy
    the bundle inlines. *)

Definition getBaseURL (params : Params) (context : Context) : Completion string :=
  let address := js_or (address params) (env_var context "ADDRESS") in
  if negb (truthy address) then
    Throw (new_Error "No URL specified. Provide address parameter or ADDRESS environment variable")
  else
    match address with
    | JStr a => Return (if endsWithSlash a then dropLast a else a)
    | _ => Throw (TypeError "address.endsWith is not a function")
    end.

Module Utils.

Definition enableAccount (accountId : JsVal) (baseUrl : string)
    (authToken externalVerificationId forceProvisioning : JsVal) : M Response :=
  let encodedAccountId := encodeURIComponent (ToString accountId) in
  let url := baseUrl +:+ "/v3/accounts/" +:+ encodedAccountId +:+ "/enable" in
  let requestBody := requestBody externalVerificationId forceProvisioning in
  let! authHeader := lift (authHeader authToken) in
  post url authHeader requestBody.

Section WithUtils.

Variable resolveJSONPathTemplates : Params -> JsVal -> Params * list JsVal.
Variable getAuthorizationHeader : Context -> M string.

(** [invoke] once the parameters are resolved. *)
Definition invoke_resolved (resolvedParams : Params) (context : Context) : M JsVal :=
  let accountId := accountId resolvedParams in
  console_log ("Starting SailPoint IdentityNow account enable for account: "
               +:+ ToString accountId) ;;
  let! baseUrl := lift (getBaseURL resolvedParams context) in
  let! authHeader := getAuthorizationHeader context in
  let! response := enableAccount accountId baseUrl (JStr authHeader)
                     (externalVerificationId resolvedParams)
                     (forceProvisioning resolvedParams) in
  if ok response then
    let! responseData := lift (json response) in
    console_log ("Successfully initiated account enable for account "
                 +:+ ToString accountId) ;;
    enabled_result accountId responseData
      "Account enable operation initiated" [("address", JStr baseUrl)]
  else fail_response response.

Definition invoke (params : Params) (context : Context) : M JsVal :=
  let jobContext := js_or (data context) (JObj []) in
  let '(resolvedParams, errors) := resolveJSONPathTemplates params jobContext in
  (if (0 <? length errors)%nat
   then console_warn "Template resolution errors:" (JArr errors)
   else ret tt) ;;
  invoke_resolved resolvedParams context.

End WithUtils.

(** The error entry point: [throw error]. *)
Definition error (params : Params) (_context : Context) : M JsVal :=
  throw (error params).

End Utils.

Module Bundle.

Definition enableAccount := Utils.enableAccount.

Definition invoke (getAuthorizationHeader : Context -> M string)
    (params : Params) (context : Context) : M JsVal :=
  Utils.invoke_resolved getAuthorizationHeader params context.

Definition error (params : Params) (_context : Context) : M JsVal :=
  throw (error params).

End Bundle.

(** ** Vocabulary of the statements *)

(** [JSON.stringify v] as text, for a value that has one. *)
Definition JSON_text (v : JsVal) : string :=
  match JSON_stringify v with Some t => t | None => EmptyString end.

(** The value of a request header. *)
Fixpoint header (k : string) (hs : list (string * string)) : option string :=
  match hs with
  | [] => None
  | (k', v) :: rest => if String.eqb k k' then Some v else header k rest
  end.

(** The request [enableAccount] hands to [fetch], given the address. *)
Definition enable_request (target token : string)
    (externalVerificationId forceProvisioning : JsVal) : Request :=
  {| url := target;
     method := "POST";
     headers := [("Authorization", bearer token);
                 ("Accept", "application/json");
                 ("Content-Type", "application/json")];
     body := JSON_stringify_object (requestBody externalVerificationId forceProvisioning) |}.

(** The value of [v.k] when the read does not throw. *)
Definition prop (v : JsVal) (k : string) : JsVal :=
  match get_prop v k with Return x => x | Throw _ => JUndefined end.

(** The request the error entry point re-issues, given the token and the
    parsed base address. *)
Definition retry_request (params : Params) (origin token : string) : Request :=
  enable_request
    (origin +:+ URL_pathname ("/v3/accounts/"
                              +:+ encodeURIComponent (ToString (accountId params))
                              +:+ "/enable"))
    token (externalVerificationId params) (forceProvisioning params).

(** The request of the utils revision, for resolved parameters, a base
    address and the header the credential helper returned. *)
Definition Utils_request (resolvedParams : Params) (baseUrl authorization : string)
  : Request :=
  enable_request
    (baseUrl +:+ "/v3/accounts/" +:+ encodeURIComponent (ToString (accountId resolvedParams))
     +:+ "/enable")
    authorization (externalVerificationId resolvedParams) (forceProvisioning resolvedParams).

(** The console lines that open and close the error entry point. *)
Definition failed_log (params : Params) : Event :=
  EvConsole Error ("Account enable failed for account " +:+ ToString (accountId params)
                   +:+ ": " +:+ message (error params)) None.

Definition unable_log (params : Params) : Event :=
  EvConsole Error ("Unable to recover from error for account "
                   +:+ ToString (accountId params)) None.

(** The error the error entry point ends with. *)
Definition unrecoverable (params : Params) : JsError :=
  new_Error ("Unrecoverable error enabling account " +:+ ToString (accountId params)
             +:+ ": " +:+ message (error params)).

(** The back-off effects of the two [if] blocks of the error entry point. *)
Definition rate_limit_backoff (params : Params) (context : Context) : list Event :=
  Domain.backoff "Rate limited by SailPoint API - waiting "
    (Domain.rateLimitBackoffMs context) (accountId params) " after rate limit backoff".

Definition service_backoff (params : Params) (context : Context) : list Event :=
  Domain.backoff "SailPoint service temporarily unavailable - waiting "
    (Domain.serviceErrorBackoffMs context) (accountId params) " after service interruption".

(** When the token is configured and the base address parses, the effects
    [tail] that follow a back-off start with the retried request. *)
Definition retry_sent (params : Params) (context : Context) (w : World)
    (tail : list Event) : Prop :=
  forall (sec : gmap string string) (token origin : string),
    secrets context = Some sec ->
    sec !! "BEARER_AUTH_TOKEN" = Some token ->
    base_origin w ("https://" +:+ ToString (sailpointDomain params)) = Return origin ->
    exists rest, tail = EvFetch (retry_request params origin token) :: rest.

(** The message [invoke] starts from: the HTTP status. *)
Definition default_message (status : Z) : string :=
  "Failed to enable account: HTTP " +:+ pretty status.

(** The error [invoke] throws after an unsuccessful response. *)
Definition failure_error (msg : string) (status : Z) : JsError :=
  {| name := "Error"; message := msg; statusCode := JNum status |}.

(** The message for a parsed error body, by truthiness of its fields. *)
Definition body_message (errorBody : JsVal) (status : Z) : string :=
  if truthy (prop errorBody "detailCode") then
    "Failed to enable account: " +:+ ToString (prop errorBody "detailCode") +:+ " - "
    +:+ ToString (js_or (prop errorBody "trackingId") (JStr EmptyString))
  else if truthy (prop errorBody "message") then
    "Failed to enable account: " +:+ ToString (prop errorBody "message")
  else default_message status.

(** The message for a body read as text. *)
Definition text_message (errorText : string) (status : Z) : string :=
  if negb (String.eqb errorText EmptyString)
  then "Failed to enable account: " +:+ errorText
  else default_message status.

(** [invoke] of the utils revision got as far as a response: the templates
    resolve to [resolvedParams], the base address to [baseUrl], the credential
    helper returns a header, and the request is answered by [response]. *)
Definition answered
    (resolveJSONPathTemplates : Params -> JsVal -> Params * list JsVal)
    (getAuthorizationHeader : Context -> M string)
    (params : Params) (context : Context) (w : World)
    (resolvedParams : Params) (baseUrl : string) (response : Response) : Prop :=
  exists (errors : list JsVal) (authorization : string) (ev : list Event) (n : nat),
    resolveJSONPathTemplates params (js_or (data context) (JObj [])) = (resolvedParams, errors)
    /\ getBaseURL resolvedParams context = Return baseUrl
    /\ getAuthorizationHeader context w 0%nat = mkRun (Return authorization) ev n
    /\ fetch_outcome w n (Utils_request resolvedParams baseUrl authorization)
       = Resolved response.

(** Every character of [s] passes the test [p]. *)
Fixpoint all_chars (p : ascii -> bool) (s : string) : bool :=
  match s with
  | EmptyString => true
  | String c rest => p c && all_chars p rest
  end.

(** The characters an encoded identifier is made of. *)
Definition unescaped_or_percent (c : ascii) : bool :=
  uriUnescaped c || Ascii.eqb c "%".

(** ** The specification's wording, for comparison with the code *)

(** A header that carries the prefix exactly once: the prefix, then a
    remainder that does not start with the prefix again. *)
Definition prefixed_once (header : string) : bool :=
  startsWith header "Bearer " && negb (startsWith header "Bearer Bearer ").

(** ASCII lower-casing, enough to compare with an ASCII needle. *)
Definition lower_ascii (c : ascii) : ascii :=
  if in_range "A" "Z" c then ascii_of_N (N_of_ascii c + 32) else c.

Fixpoint toLowerCase (s : string) : string :=
  match s with
  | EmptyString => EmptyString
  | String c rest => String (lower_ascii c) (toLowerCase rest)
  end.

(** The rate-limit classification as the specification words it: status 429,
    or, when the error carries no status, a message containing [429] or,
    in any letter case, [rate limit]. *)
Definition spec_isRateLimited (error : JsError) : bool :=
  match statusCode error with
  | JUndefined =>
      includes (toLowerCase (message error)) "429"
      || includes (toLowerCase (message error)) "rate limit"
  | status => strict_eq_num status 429
  end.

(** The task identifier and the message of the result as the specification
    words them: the [id] field, the [taskId] field when [id] is absent; the
    [message] field, the literal when the body supplies none. *)
Definition spec_taskId (responseData : JsVal) : JsVal :=
  match responseData with
  | JObj fields =>
      match assoc "id" fields with
      | Some id => id
      | None => prop responseData "taskId"
      end
  | _ => JUndefined
  end.

Definition spec_message (responseData : JsVal) : JsVal :=
  match responseData with
  | JObj fields =>
      match assoc "message" fields with
      | Some msg => msg
      | None => JStr "Account enable operation initiated"
      end
  | _ => JStr "Account enable operation initiated"
  end.

(** ** Worlds, contexts and inputs of the examples *)

(** The failures of [json()] on a body that is not JSON, and of [text()] on
    a body that was already read. *)
Definition syntax_error : JsError :=
  {| name := "SyntaxError"; message := "Unexpected token"; statusCode := JUndefined |}.

Definition body_used : JsError :=
  TypeError "Body is unusable: Body has already been read".

(** A response with a JSON body, as [fetch] delivers it: once [json()] has
    read the body, [text()] finds it used. *)
Definition json_response (ok : bool) (status : Z) (body : JsVal) : Response :=
  {| ok := ok; status := status; json := Return body; text := Throw body_used |}.

(** A response as the repository's tests mock it for a body that is not
    JSON: [json()] rejects and [text()] still yields the raw text. *)
Definition text_response (ok : bool) (status : Z) (raw : string) : Response :=
  {| ok := ok; status := status; json := Throw syntax_error; text := Return raw |}.

(** A response whose body is not JSON, as [fetch] delivers it: [json()]
    consumes the body and rejects, and [text()] then finds it used. *)
Definition consumed_response (ok : bool) (status : Z) : Response :=
  {| ok := ok; status := status; json := Throw syntax_error; text := Throw body_used |}.

(** A world that answers every request with the same response, parses a base
    address to itself, and whose clock reads a fixed instant. *)
Definition always (r : Response) : World :=
  {| fetch_outcome := fun _ _ => Resolved r;
     now := "2024-01-01T00:00:00.000Z";
     base_origin := fun base => Return base |}.

(** A world that answers the requests with the listed outcomes, in order,
    and rejects any further one. *)
Definition script (l : list FetchOutcome) : World :=
  {| fetch_outcome := fun n _ => nth n l (Rejected (TypeError "fetch failed"));
     now := "2024-01-01T00:00:00.000Z";
     base_origin := fun base => Return base |}.

(** A world for the examples: no request is answered. *)
Definition offline : World := script [].

(** Contexts: with a bearer token, without [environment] and [secrets], and
    with both empty. *)
Definition token_context (token : string) : Context :=
  {| data := JUndefined;
     environment := Some ∅;
     secrets := Some {[ "BEARER_AUTH_TOKEN" := token ]} |}.

Definition no_context : Context :=
  {| data := JUndefined; environment := None; secrets := None |}.

Definition empty_context : Context :=
  {| data := JUndefined; environment := Some ∅; secrets := Some ∅ |}.

(** A template resolver that finds no template. *)
Definition no_templates (params : Params) (_jobContext : JsVal) : Params * list JsVal :=
  (params, []).

(** A credential helper that knows the bearer-token method only (the first
    method of the bundle's [getAuthorizationHeader]). *)
Definition bearer_only_header (context : Context) : M string :=
  match secret_opt context "BEARER_AUTH_TOKEN" with
  | JStr token =>
      if truthy (JStr token) then ret (bearer token)
      else throw (new_Error "No authentication configured.")
  | _ => throw (new_Error "No authentication configured.")
  end.

(** The responses of the examples: 202 with a task id, and 503. *)
Definition accepted : Response :=
  json_response true 202 (JObj [("id", JStr "task789")]).

Definition unavailable : Response :=
  json_response false 503 (JObj [("message", JStr "rate limit exceeded")]).

(** An accepted body whose [id] and [message] are the empty string. *)
Definition empty_id_body : JsVal :=
  JObj [("id", JStr EmptyString); ("taskId", JStr "task789");
        ("message", JStr EmptyString)].

(** The parameters of the repository's tests of the utils revision. *)
Definition utils_params : Params :=
  {| accountId := JStr "acc123"; address := JStr "https://example.api.identitynow.com";
     sailpointDomain := JUndefined;
     externalVerificationId := JUndefined; forceProvisioning := JUndefined;
     reason := JUndefined; error := new_Error EmptyString |}.

(** The parameters of the error entry point for a failure with the given
    status and message. *)
Definition failure (status : JsVal) (msg : string) : Params :=
  {| accountId := JStr "acc123"; address := JUndefined;
     sailpointDomain := JStr "example.api.identitynow.com";
     externalVerificationId := JUndefined; forceProvisioning := JUndefined;
     reason := JUndefined;
     error := {| name := "Error"; message := msg; statusCode := status |} |}.

(** The failure of the test [should throw on unrecoverable errors]. *)
Definition unauthorized : Params :=
  {| accountId := JStr "acc123"; address := JUndefined; sailpointDomain := JUndefined;
     externalVerificationId := JUndefined; forceProvisioning := JUndefined;
     reason := JUndefined;
     error := {| name := "Error"; message := "Authentication failed"; statusCode := JNum 401 |} |}.

(** A failure without status whose message names the rate limit in capitals. *)
Definition capitalised_rate_limit : Params :=
  failure JUndefined "Rate Limit exceeded".

(** A 503 whose message mentions the rate limit. *)
Definition unavailable_rate_limit : Params :=
  failure (JNum 503) "Failed to enable account: rate limit exceeded".

(** A halt request whose account identifier is the empty string. *)
Definition halted_empty_id : Params :=
  {| accountId := JStr EmptyString; address := JUndefined; sailpointDomain := JUndefined;
     externalVerificationId := JUndefined; forceProvisioning := JUndefined;
     reason := JStr "timeout"; error := new_Error EmptyString |}.

(** Account identifiers that are dot segments of a path. *)
Definition dot_dot : Params :=
  {| accountId := JStr ".."; address := JUndefined;
     sailpointDomain := JStr "example.api.identitynow.com";
     externalVerificationId := JUndefined; forceProvisioning := JUndefined;
     reason := JUndefined; error := new_Error EmptyString |}.

Definition single_dot : Params :=
  {| accountId := JStr "."; address := JUndefined;
     sailpointDomain := JStr "example.api.identitynow.com";
     externalVerificationId := JUndefined; forceProvisioning := JUndefined;
     reason := JUndefined; error := new_Error EmptyString |}.

(** The identifier of the repository's injection test. *)
Definition injection_id : Params :=
  {| accountId := JStr "acc/123&test=1"; address := JStr "https://example.api.identitynow.com";
     sailpointDomain := JStr "example.api.identitynow.com";
     externalVerificationId := JUndefined; forceProvisioning := JUndefined;
     reason := JUndefined; error := new_Error EmptyString |}.

(** ** The authentication utilities, as the bundle inlines them

    [btoa] reads its argument as a binary string: every character must be at
    most U+00FF, and is then one byte.  In the UTF-8 bytes of a string those
    are the ASCII bytes and the two-byte sequences led by C2 or C3; any other
    leading byte starts a character that [btoa] rejects. *)

Definition base64Chars : string :=
  "ABCDEFGHIJKLMNOPQRSTUVWXYZabcdefghijklmnopqrstuvwxyz0123456789+/".

Definition base64Char (n : N) : ascii :=
  match String.get (N.to_nat n) base64Chars with
  | Some c => c
  | None => "="%char
  end.

Fixpoint base64 (bytes : list N) : string :=
  match bytes with
  | [] => EmptyString
  | [a] =>
      String (base64Char (a / 4))
        (String (base64Char ((a mod 4) * 16)) "==")
  | [a; b] =>
      String (base64Char (a / 4))
        (String (base64Char ((a mod 4) * 16 + b / 16))
           (String (base64Char ((b mod 16) * 4)) "="))
  | a :: b :: c :: rest =>
      String (base64Char (a / 4))
        (String (base64Char ((a mod 4) * 16 + b / 16))
           (String (base64Char ((b mod 16) * 4 + c / 64))
              (String (base64Char (c mod 64)) (base64 rest))))
  end.

(** The bytes of a binary string, or [None] when a character is beyond
    U+00FF. *)
Fixpoint latin1 (s : string) : option (list N) :=
  match s with
  | EmptyString => Some []
  | String c rest =>
      let n := N_of_ascii c in
      if (n <? 128)%N then option_map (cons n) (latin1 rest)
      else if (n =? 194)%N || (n =? 195)%N then
        match rest with
        | String d rest' =>
            let m := N_of_ascii d in
            if (128 <=? m)%N && (m <? 192)%N
            then option_map (cons ((n - 192) * 64 + (m - 128))%N) (latin1 rest')
            else None
        | EmptyString => None
        end
      else None
  end.

Definition InvalidCharacterError : JsError :=
  {| name := "InvalidCharacterError";
     message := "Invalid character";
     statusCode := JUndefined |}.

Definition btoa (s : string) : Completion string :=
  match latin1 s with
  | Some bytes => Return (base64 bytes)
  | None => Throw InvalidCharacterError
  end.

(** [URLSearchParams]: a list of pairs, serialised by [toString()] in the
    form-urlencoded way: letters, digits and [* - . _] are kept, a space
    becomes [+], every other byte is percent-escaped. *)

Definition formUnescaped (c : ascii) : bool :=
  is_alpha c || is_digit c || char_in c "*-._".

Fixpoint formEncode (s : string) : string :=
  match s with
  | EmptyString => EmptyString
  | String c rest =>
      (if Ascii.eqb c " " then "+"
       else if formUnescaped c then String c EmptyString
       else percentEncode c)
      +:+ formEncode rest
  end.

Fixpoint join_ampersands (l : list string) : string :=
  match l with
  | [] => EmptyString
  | [x] => x
  | x :: rest => x +:+ "&" +:+ join_ampersands rest
  end.

Definition URLSearchParams_toString (params : list (string * string)) : string :=
  join_ampersands (map (fun p => formEncode (fst p) +:+ "=" +:+ formEncode (snd p)) params).

(** The argument of [getClientCredentialsToken]. *)
Record OAuth2Config : Type := mkOAuth2Config {
  tokenUrl : JsVal;
  clientId : JsVal;
  clientSecret : JsVal;
  scope : JsVal;
  audience : JsVal;
  authStyle : JsVal
}.

(** [v === 'InParams'] *)
Definition is_InParams (v : JsVal) : bool :=
  match v with JStr s => String.eqb s "InParams" | _ => false end.

(** The pairs appended to [params] before the request. *)
Definition token_params (config : OAuth2Config) : list (string * string) :=
  [("grant_type", "client_credentials")]
  ++ (if truthy (scope config) then [("scope", ToString (scope config))] else [])
  ++ (if truthy (audience config) then [("audience", ToString (audience config))] else [])
  ++ (if is_InParams (authStyle config)
      then [("client_id", ToString (clientId config));
            ("client_secret", ToString (clientSecret config))]
      else []).

Definition token_headers : list (string * string) :=
  [("Content-Type", "application/x-www-form-urlencoded");
   ("Accept", "application/json")].

Section Credentials.

(** [response.statusText], which the record [Response] does not carry. *)
Variable statusText : Response -> string.

(** [JSON.stringify(errorData)] inside a template literal. *)
Definition stringified (errorData : JsVal) : string :=
  match JSON_stringify errorData with
  | Some t => t
  | None => "undefined"
  end.

(** The error path of the token request: the [try] and [catch] blocks that
    compute [errorText], and the error thrown. *)
Definition token_request_failed {A} (response : Response) : M A :=
  let! errorText :=
    try_catch (let! errorData := lift (json response) in ret (stringified errorData))
              (lift (text response)) in
  throw (new_Error ("OAuth2 token request failed: " +:+ pretty (status response) +:+ " "
                    +:+ statusText response +:+ " - " +:+ errorText)).

Definition getClientCredentialsToken (config : OAuth2Config) : M JsVal :=
  if negb (truthy (tokenUrl config)) || negb (truthy (clientId config))
     || negb (truthy (clientSecret config)) then
    throw (new_Error
             "OAuth2 Client Credentials flow requires tokenUrl, clientId, and clientSecret")
  else
    let params := token_params config in
    let! headers :=
      (if is_InParams (authStyle config) then ret token_headers
       else
         let! credentials :=
           lift (btoa (ToString (clientId config) +:+ ":" +:+ ToString (clientSecret config))) in
         ret (token_headers ++ [("Authorization", "Basic " +:+ credentials)])) in
    let! response :=
      fetch {| url := ToString (tokenUrl config);
               method := "POST";
               headers := headers;
               body := URLSearchParams_toString params |} in
    if negb (ok response) then token_request_failed response
    else
      let! data := lift (json response) in
      let! access_token := lift (get_prop data "access_token") in
      if negb (truthy access_token) then
        throw (new_Error "No access_token in OAuth2 response")
      else ret access_token.

Definition getAuthorizationHeader (context : Context) : M string :=
  let BEARER_AUTH_TOKEN := secret_opt context "BEARER_AUTH_TOKEN" in
  let BASIC_PASSWORD := secret_opt context "BASIC_PASSWORD" in
  let BASIC_USERNAME := secret_opt context "BASIC_USERNAME" in
  let ACCESS_TOKEN := secret_opt context "OAUTH2_AUTHORIZATION_CODE_ACCESS_TOKEN" in
  let CLIENT_SECRET := secret_opt context "OAUTH2_CLIENT_CREDENTIALS_CLIENT_SECRET" in
  if truthy BEARER_AUTH_TOKEN then
    ret (bearer (ToString BEARER_AUTH_TOKEN))
  else if truthy BASIC_PASSWORD && truthy BASIC_USERNAME then
    let! credentials :=
      lift (btoa (ToString BASIC_USERNAME +:+ ":" +:+ ToString BASIC_PASSWORD)) in
    ret ("Basic " +:+ credentials)
  else if truthy ACCESS_TOKEN then
    ret (bearer (ToString ACCESS_TOKEN))
  else if truthy CLIENT_SECRET then
    let tokenUrl := env_var context "OAUTH2_CLIENT_CREDENTIALS_TOKEN_URL" in
    let clientId := env_var context "OAUTH2_CLIENT_CREDENTIALS_CLIENT_ID" in
    if negb (truthy tokenUrl) || negb (truthy clientId) then
      throw (new_Error
               "OAuth2 Client Credentials flow requires TOKEN_URL and CLIENT_ID in env")
    else
      let! token :=
        getClientCredentialsToken
          {| tokenUrl := tokenUrl;
             clientId := clientId;
             clientSecret := CLIENT_SECRET;
             scope := env_var context "OAUTH2_CLIENT_CREDENTIALS_SCOPE";
             audience := env_var context "OAUTH2_CLIENT_CREDENTIALS_AUDIENCE";
             authStyle := env_var context "OAUTH2_CLIENT_CREDENTIALS_AUTH_STYLE" |} in
      ret ("Bearer " +:+ ToString token)
  else
    throw (new_Error
             ("No authentication configured. Provide one of: "
              +:+ "BEARER_AUTH_TOKEN, BASIC_USERNAME/BASIC_PASSWORD, "
              +:+ "OAUTH2_AUTHORIZATION_CODE_ACCESS_TOKEN, or OAUTH2_CLIENT_CREDENTIALS_*")).

(** [invoke] of the bundle, with its own credential helper. *)
Definition bundle_invoke (params : Params) (context : Context) : M JsVal :=
  Bundle.invoke getAuthorizationHeader params context.

End Credentials.

(** ** Vocabulary of the further statements *)

Definition hexValue (c : ascii) : N :=
  let n := N_of_ascii c in
  if is_digit c then (n - 48)%N
  else if in_range "A" "F" c then (n - 55)%N
  else if in_range "a" "f" c then (n - 87)%N
  else 0%N.

(** Percent-decoding, a left inverse of [encodeURIComponent]. *)
Fixpoint percentDecode (s : string) : string :=
  match s with
  | EmptyString => EmptyString
  | String c rest =>
      if Ascii.eqb c "%" then
        match rest with
        | String x (String y rest') =>
            String (ascii_of_N (16 * hexValue x + hexValue y)) (percentDecode rest')
        | _ => String c (percentDecode rest)
        end
      else String c (percentDecode rest)
  end.

(** [v && typeof v === 'string']: a non-empty string. *)
Definition nonempty_string (v : JsVal) : bool := truthy v && is_string v.

(** The console line [invoke] starts with. *)
Definition starting_log (accountId : JsVal) : Event :=
  EvConsole Log ("Starting SailPoint IdentityNow account enable for account: "
                 +:+ ToString accountId) None.

(** A text that does not go on with a decimal digit. *)
Definition no_leading_digit (s : string) : bool :=
  match s with
  | String c _ => negb (is_digit c)
  | EmptyString => true
  end.

(** The credentials that need no request: the first three methods of
    [getAuthorizationHeader]. *)
Definition static_credentials (context : Context) : bool :=
  truthy (secret_opt context "BEARER_AUTH_TOKEN")
  || (truthy (secret_opt context "BASIC_PASSWORD")
      && truthy (secret_opt context "BASIC_USERNAME"))
  || truthy (secret_opt context "OAUTH2_AUTHORIZATION_CODE_ACCESS_TOKEN").

(** The configuration the fourth method reads from the context. *)
Definition client_credentials_config (context : Context) : OAuth2Config :=
  {| tokenUrl := env_var context "OAUTH2_CLIENT_CREDENTIALS_TOKEN_URL";
     clientId := env_var context "OAUTH2_CLIENT_CREDENTIALS_CLIENT_ID";
     clientSecret := secret_opt context "OAUTH2_CLIENT_CREDENTIALS_CLIENT_SECRET";
     scope := env_var context "OAUTH2_CLIENT_CREDENTIALS_SCOPE";
     audience := env_var context "OAUTH2_CLIENT_CREDENTIALS_AUDIENCE";
     authStyle := env_var context "OAUTH2_CLIENT_CREDENTIALS_AUTH_STYLE" |}.

(** The [Authorization] header of the token request, if it has one. *)
Definition token_authorization (config : OAuth2Config) : Completion (option string) :=
  if is_InParams (authStyle config) then Return None
  else
    match btoa (ToString (clientId config) +:+ ":" +:+ ToString (clientSecret config)) with
    | Return credentials => Return (Some ("Basic " +:+ credentials))
    | Throw e => Throw e
    end.

(** The token request, given its [Authorization] header. *)
Definition token_request (config : OAuth2Config) (authorization : option string) : Request :=
  {| url := ToString (tokenUrl config);
     method := "POST";
     headers := token_headers
                ++ match authorization with
                   | Some h => [("Authorization", h)]
                   | None => []
                   end;
     body := URLSearchParams_toString (token_params config) |}.

(** The text a failed token request is reported with. *)
Definition token_error_text (response : Response) : Completion string :=
  match json response with
  | Return errorData => Return (stringified errorData)
  | Throw _ => text response
  end.

(** The access token of a token response. *)
Definition access_token_of (response : Response) : Completion JsVal :=
  match json response with
  | Return data =>
      match get_prop data "access_token" with
      | Return t =>
          if truthy t then Return t
          else Throw (new_Error "No access_token in OAuth2 response")
      | Throw e => Throw e
      end
  | Throw e => Throw e
  end.

Definition no_authentication : JsError :=
  new_Error ("No authentication configured. Provide one of: "
             +:+ "BEARER_AUTH_TOKEN, BASIC_USERNAME/BASIC_PASSWORD, "
             +:+ "OAUTH2_AUTHORIZATION_CODE_ACCESS_TOKEN, or OAUTH2_CLIENT_CREDENTIALS_*").

(** A context with a user name and a password, and one with client
    credentials, as the repository's documentation lists them. *)
Definition basic_context (username password : string) : Context :=
  {| data := JUndefined;
     environment := Some ∅;
     secrets := Some {[ "BASIC_USERNAME" := username; "BASIC_PASSWORD" := password ]} |}.

Definition client_context (style : string) : Context :=
  {| data := JUndefined;
     environment :=
       Some {[ "OAUTH2_CLIENT_CREDENTIALS_TOKEN_URL" := "https://auth.example.com/token";
               "OAUTH2_CLIENT_CREDENTIALS_CLIENT_ID" := "client";
               "OAUTH2_CLIENT_CREDENTIALS_SCOPE" := "read write";
               "OAUTH2_CLIENT_CREDENTIALS_AUTH_STYLE" := style ]};
     secrets := Some {[ "OAUTH2_CLIENT_CREDENTIALS_CLIENT_SECRET" := "s3cret&x" ]} |}.

(** A context whose rate-limit wait is configured with a unit. *)
Definition waiting_context : Context :=
  {| data := JUndefined;
     environment := Some {[ "RATE_LIMIT_BACKOFF_MS" := "5000ms" ]};
     secrets := Some ∅ |}.

(** Reason phrases of the examples. *)
Definition reason_phrase (response : Response) : string :=
  if (status response =? 401)%Z then "Unauthorized" else "OK".

Definition token_granted : Response :=
  json_response true 200 (JObj [("access_token", JStr "abc123")]).

Definition token_denied : Response :=
  json_response false 401 (JObj [("error", JStr "invalid_client")]).

(** Reading a form-urlencoded body, as the receiving side does: the fields
    are separated by [&], name and value by the first [=], a [+] is a space
    and a percent sign with two hexadecimal digits is a byte. *)
Fixpoint formDecode (s : string) : string :=
  match s with
  | EmptyString => EmptyString
  | String c rest =>
      if Ascii.eqb c "+" then String " " (formDecode rest)
      else if Ascii.eqb c "%" then
        match rest with
        | String x (String y rest') =>
            String (ascii_of_N (16 * hexValue x + hexValue y)) (formDecode rest')
        | _ => String c (formDecode rest)
        end
      else String c (formDecode rest)
  end.

Fixpoint split_field (s : string) : string * string :=
  match s with
  | EmptyString => (EmptyString, EmptyString)
  | String c rest =>
      if Ascii.eqb c "=" then (EmptyString, rest)
      else let (k, v) := split_field rest in (String c k, v)
  end.

Definition parse_form (s : string) : list (string * string) :=
  map (fun field => let (k, v) := split_field field in (formDecode k, formDecode v))
      (split_on "&" s).

(** Neither [&] nor [=]. *)
Definition no_separator (c : ascii) : bool :=
  negb (Ascii.eqb c "&") && negb (Ascii.eqb c "=").

(** [Number.isSafeInteger]: the integers a JavaScript number holds exactly. *)
Definition isSafeInteger (z : Z) : bool := (Z.abs z <=? 9007199254740991)%Z.

(** The message holds one of the two texts the rate-limit test looks for. *)
Definition mentions_rate_limit (e : JsError) : bool :=
  includes (message e) "429" || includes (message e) "rate limit".

(** Halt requests: the repository's test without an account identifier, and
    a reason that is an object with a property named [toString]. *)
Definition halted_missing_id : Params :=
  {| accountId := JUndefined; address := JUndefined; sailpointDomain := JUndefined;
     externalVerificationId := JUndefined; forceProvisioning := JUndefined;
     reason := JStr "timeout"; error := new_Error EmptyString |}.

Definition halted_object_reason : Params :=
  {| accountId := JStr "acc123"; address := JUndefined; sailpointDomain := JUndefined;
     externalVerificationId := JUndefined; forceProvisioning := JUndefined;
     reason := JObj [("toString", JStr "x")]; error := new_Error EmptyString |}.

(** The values whose text [ToString] writes as JavaScript does: the
    conversion returns, and every number met on the way is an integer a
    JavaScript number holds exactly. *)
Fixpoint has_text (v : JsVal) : bool :=
  match v with
  | JNum z => isSafeInteger z
  | JArr items => forallb has_text items
  | JObj fs => match assoc "toString" fs with Some _ => false | None => true end
  | _ => true
  end.

(** The values whose JSON text [JSON_stringify] writes as JavaScript does:
    every number in them is an integer a JavaScript number holds exactly. *)
Fixpoint safe_numbers (v : JsVal) : bool :=
  match v with
  | JNum z => isSafeInteger z
  | JArr items => forallb safe_numbers items
  | JObj fs => forallb (fun member => safe_numbers (snd member)) fs
  | _ => true
  end.

(** The delays a timer honours as they are: from 1 to 2^31 - 1 milliseconds;
    any other delay is replaced by 1. *)
Definition timer_delay (z : Z) : bool := (1 <=? z)%Z && (z <=? 2147483647)%Z.
(** * Theorems *)

#[local] Arguments String.append !_ _ : simpl nomatch.

(** Case analysis on the answer to the request in the goal. *)
Ltac case_fetch :=
  match goal with
  | |- context [fetch_outcome ?w ?n ?r] => destruct (fetch_outcome w n r)
  end.

(** ** The error entry point of the utils revision and of the bundle *)

(** C10: in the utils revision and in the bundle the error entry point throws
    the error it was given, whatever the parameters, the context, the world
    and the call counter: it performs no effect at all (no console output, no
    wait, no request) and never returns a value. *)
Theorem error_rethrows :
  forall (params : Params) (context : Context) (w : World) (n : nat),
    Utils.error params context w n = mkRun (Throw (error params)) [] n
    /\ Bundle.error params context w n = mkRun (Throw (error params)) [] n
    /\ (forall result, outcome (Utils.error params context w n) <> Return result)
    /\ (forall result, outcome (Bundle.error params context w n) <> Return result).
Proof.
  intros params context w n.
  repeat split; try reflexivity; intros result H; discriminate H.
Qed.

(** ** The halt handler *)

(** C9, amended: for every parameter object whose [reason] converts to text
    and whose [accountId] is absent or a non-empty string, the halt handler
    returns, without throwing, the report whose [accountId] is the supplied
    one, or the literal [unknown] when none is supplied, whose [reason] is
    the supplied one, whose [haltedAt] is the clock reading and whose
    [cleanupCompleted] is [true]; its only effect is one console line (the
    line with reason and identifier, when every number in the reason is one
    [ToString] writes exactly): no wait, no request, and the call counter is
    left as it was. *)
Theorem halt_report :
  forall (params : Params) (context : Context) (w : World) (n : nat),
    converts (reason params) = true ->
    accountId params = JUndefined \/ nonempty_string (accountId params) = true ->
    (exists line,
       halt params context w n =
         mkRun (Return (JObj [("accountId", match accountId params with
                                            | JUndefined => JStr "unknown"
                                            | supplied => supplied
                                            end);
                              ("reason", reason params);
                              ("haltedAt", JStr (now w));
                              ("cleanupCompleted", JBool true)]))
               [EvConsole Log line None] n)
    /\ (has_text (reason params) = true ->
        events (halt params context w n)
        = [EvConsole Log ("Account enable job is being halted ("
                          +:+ ToString (reason params) +:+ ") for account "
                          +:+ ToString (accountId params)) None])
    /\ requests (events (halt params context w n)) = []
    /\ timeouts (events (halt params context w n)) = [].
Proof.
  intros params context w n Hreason Hid.
  assert (Hconv : converts (accountId params) = true).
  { destruct Hid as [-> | Hid]; [reflexivity |].
    unfold nonempty_string in Hid. apply andb_true_iff in Hid as [_ Hid].
    destruct (accountId params); try discriminate Hid. reflexivity. }
  assert (Hjs : js_or (accountId params) (JStr "unknown")
                = match accountId params with
                  | JUndefined => JStr "unknown"
                  | supplied => supplied
                  end).
  { unfold js_or. destruct Hid as [-> | Hid]; [reflexivity |].
    unfold nonempty_string in Hid. apply andb_true_iff in Hid as [Ht Hs].
    rewrite Ht. destruct (accountId params); try discriminate Hs. reflexivity. }
  unfold halt, template. rewrite Hreason, Hconv, Hjs.
  split; [eexists; reflexivity | split; [intros _ |]; repeat split].
Qed.

(** An instance of the theorem on the halt report: the repository's test
    without an account identifier. *)
Lemma halt_report_witness :
  exists line,
    run (halt halted_missing_id no_context) offline
    = mkRun (Return (JObj [("accountId", JStr "unknown");
                           ("reason", JStr "timeout");
                           ("haltedAt", JStr (now offline));
                           ("cleanupCompleted", JBool true)]))
            [EvConsole Log line None] 0.
Proof.
  exact (proj1 (halt_report halted_missing_id no_context offline 0%nat
                  eq_refl (or_introl eq_refl))).
Defined.

(** C9, as worded, fails: the handler does not succeed on every input.  A
    reason that is an object with an own [toString] property cannot be
    converted for the console line, and the handler throws before it has
    logged or returned anything. *)
Lemma halt_object_reason_throws :
  run (halt halted_object_reason no_context) offline
  = mkRun (Throw (TypeError "Cannot convert object to primitive value")) [] 0.
Proof. reflexivity. Qed.

(** ** Runs of the monad *)

Lemma run_eta : forall {A} (r : Run A), mkRun (outcome r) (events r) (calls r) = r.
Proof. intros A []. reflexivity. Qed.

(** The monad laws. *)
Lemma bind_ret_l :
  forall {A B} (a : A) (k : A -> M B) (w : World) (n : nat),
    bind (ret a) k w n = k a w n.
Proof. intros. cbn. apply run_eta. Qed.

Lemma bind_ret_r :
  forall {A} (m : M A) (w : World) (n : nat),
    bind m ret w n = m w n.
Proof.
  intros A m w n. unfold bind, ret.
  destruct (m w n) as [[a | e] ev c]; cbn; [now rewrite app_nil_r | reflexivity].
Qed.

Lemma bind_assoc :
  forall {A B C} (m : M A) (f : A -> M B) (g : B -> M C) (w : World) (n : nat),
    bind (bind m f) g w n = bind m (fun a => bind (f a) g) w n.
Proof.
  intros A B C m f g w n. unfold bind.
  destruct (m w n) as [[a | e] ev c]; cbn; [| reflexivity].
  destruct (f a w c) as [[b | e] ev' c']; cbn; [| reflexivity].
  destruct (g b w c') as [o ev'' c'']; cbn.
  destruct o; now rewrite app_assoc.
Qed.

Lemma bind_emit :
  forall {B} (e : Event) (k : unit -> M B) (w : World) (n : nat),
    bind (emit e) k w n
    = mkRun (outcome (k tt w n)) (e :: events (k tt w n)) (calls (k tt w n)).
Proof. reflexivity. Qed.

Lemma bind_lift :
  forall {A B} (c : Completion A) (k : A -> M B) (w : World) (n : nat),
    bind (lift c) k w n
    = match c with
      | Return a => k a w n
      | Throw e => mkRun (Throw e) [] n
      end.
Proof. intros A B [a | e] k w n; cbn; [apply run_eta | reflexivity]. Qed.

Lemma bind_run :
  forall {A B} (m : M A) (k : A -> M B) (w : World) (n : nat),
    bind m k w n
    = match outcome (m w n) with
      | Return a =>
          mkRun (outcome (k a w (calls (m w n))))
                (events (m w n) ++ events (k a w (calls (m w n))))
                (calls (k a w (calls (m w n))))
      | Throw e => mkRun (Throw e) (events (m w n)) (calls (m w n))
      end.
Proof. reflexivity. Qed.

Lemma enabled_result_run :
  forall accountId responseData fallback extra w n,
    enabled_result accountId responseData fallback extra w n
    = mkRun (match get_prop responseData "id" with
             | Throw e => Throw e
             | Return id =>
                 Return (JObj ([("accountId", accountId);
                                ("enabled", JBool true);
                                ("taskId", js_or id (prop responseData "taskId"));
                                ("message", js_or (prop responseData "message")
                                                  (JStr fallback));
                                ("enabledAt", JStr (now w))] ++ extra))
             end) [] n.
Proof.
  intros. unfold enabled_result, prop. rewrite bind_lift.
  destruct responseData; try reflexivity.
  cbn. unfold js_or. destruct (truthy _); reflexivity.
Qed.

(** ** The request built by [enableAccount] *)

Lemma Utils_enableAccount_run :
  forall (accountId : JsVal) (baseUrl token : string)
         (externalVerificationId forceProvisioning : JsVal) (w : World) (n : nat),
    let req := enable_request
                 (baseUrl +:+ "/v3/accounts/" +:+ encodeURIComponent (ToString accountId)
                  +:+ "/enable")
                 token externalVerificationId forceProvisioning in
    Utils.enableAccount accountId baseUrl (JStr token)
      externalVerificationId forceProvisioning w n
    = match fetch_outcome w n req with
      | Resolved r => mkRun (Return r) [EvFetch req] (S n)
      | Rejected e => mkRun (Throw e) [EvFetch req] (S n)
      end.
Proof.
  intros. subst req.
  unfold Utils.enableAccount, post, bind, lift, fetch, authHeader, enable_request.
  cbn [outcome events calls].
  case_fetch; reflexivity.
Qed.

Lemma Domain_enableAccount_run :
  forall (accountId sailpointDomain : JsVal) (token : string)
         (externalVerificationId forceProvisioning : JsVal) (w : World) (n : nat),
    Domain.enableAccount accountId sailpointDomain (JStr token)
      externalVerificationId forceProvisioning w n
    = match base_origin w ("https://" +:+ ToString sailpointDomain) with
      | Throw e => mkRun (Throw e) [] n
      | Return origin =>
          let req := enable_request
                       (origin +:+ URL_pathname ("/v3/accounts/"
                                   +:+ encodeURIComponent (ToString accountId) +:+ "/enable"))
                       token externalVerificationId forceProvisioning in
          match fetch_outcome w n req with
          | Resolved r => mkRun (Return r) [EvFetch req] (S n)
          | Rejected e => mkRun (Throw e) [EvFetch req] (S n)
          end
      end.
Proof.
  intros.
  unfold Domain.enableAccount, URL_href, post, bind, lift, fetch, authHeader, enable_request.
  destruct (base_origin w _); cbn [outcome events calls]; [| reflexivity].
  case_fetch; reflexivity.
Qed.

(** ** The Authorization header *)

Lemma startsWith_app :
  forall (p q s : string), startsWith s (p +:+ q) = true -> startsWith s p = true.
Proof.
  induction p as [| c p IH]; intros q s H; [reflexivity |].
  destruct s as [| d s]; cbn in *; [discriminate |].
  apply andb_true_iff in H as [Hc Hs].
  rewrite Hc. cbn. exact (IH _ _ Hs).
Qed.

Lemma bearer_prefixed : forall token, startsWith (bearer token) "Bearer " = true.
Proof.
  intros token. unfold bearer.
  destruct (startsWith token "Bearer ") eqn:E; [exact E | reflexivity].
Qed.

Lemma bearer_idempotent : forall token, bearer (bearer token) = bearer token.
Proof.
  intros token. unfold bearer at 1. now rewrite bearer_prefixed.
Qed.

Lemma bearer_never_doubles :
  forall token,
    startsWith (bearer token) "Bearer Bearer " = startsWith token "Bearer Bearer ".
Proof.
  intros token. unfold bearer.
  destruct (startsWith token "Bearer ") eqn:E; [reflexivity |].
  change (startsWith ("Bearer " +:+ token) "Bearer Bearer ")
    with (startsWith token "Bearer ").
  rewrite E. symmetry.
  destruct (startsWith token "Bearer Bearer ") eqn:D; [| reflexivity].
  apply (startsWith_app "Bearer " "Bearer ") in D. congruence.
Qed.

(** C8, amended: for every token the revisions send the same Authorization
    header (in the utils revision and the bundle the request always goes out;
    in the domain revision it does whenever the base address parses): the
    token itself when it starts with the prefix, the prefix followed by the
    token otherwise.  The normalisation is idempotent, its result always
    starts with the prefix, and it never adds a second prefix: the header
    starts with a doubled prefix only when the token already did. *)
Theorem authorization_header :
  forall (token : string),
    (forall accountId baseUrl evid fp w n,
        exists req,
          requests (events (Utils.enableAccount accountId baseUrl (JStr token) evid fp w n))
            = [req]
          /\ header "Authorization" (headers req) = Some (bearer token))
    /\ (forall accountId domain evid fp w n req,
          In req (requests (events (Domain.enableAccount accountId domain (JStr token)
                                      evid fp w n))) ->
          header "Authorization" (headers req) = Some (bearer token))
    /\ bearer token = (if startsWith token "Bearer " then token else "Bearer " +:+ token)
    /\ bearer (bearer token) = bearer token
    /\ startsWith (bearer token) "Bearer " = true
    /\ startsWith (bearer token) "Bearer Bearer " = startsWith token "Bearer Bearer ".
Proof.
  intros token. split; [| split; [| split; [| split; [| split]]]].
  - intros. rewrite Utils_enableAccount_run. cbv zeta.
    match goal with |- context [fetch_outcome w n ?r] =>
      exists r; destruct (fetch_outcome w n r) end; split; reflexivity.
  - intros accountId domain evid fp w n req. rewrite Domain_enableAccount_run.
    destruct (base_origin w _); [| intros []]. cbv zeta.
    case_fetch; (intros [<- | []]; reflexivity).
  - reflexivity.
  - apply bearer_idempotent.
  - apply bearer_prefixed.
  - apply bearer_never_doubles.
Qed.

(** C8, as worded, fails: a token that is already doubly prefixed is sent
    unchanged, so the header carries the prefix twice. *)
Lemma doubled_token_stays_doubled :
  requests (events (run (Utils.enableAccount (JStr "acc123") "https://example.api.identitynow.com"
                           (JStr "Bearer Bearer abc") JUndefined JUndefined) offline))
    = [enable_request "https://example.api.identitynow.com/v3/accounts/acc123/enable"
         "Bearer Bearer abc" JUndefined JUndefined]
  /\ bearer "Bearer Bearer abc" = "Bearer Bearer abc"
  /\ prefixed_once (bearer "Bearer Bearer abc") = false.
Proof.
  repeat split.
Qed.

(** An instance of the header theorem: the header of an actual request. *)
Lemma authorization_header_witness :
  In (enable_request "https://example.api.identitynow.com/v3/accounts/acc123/enable"
        "test-token" JUndefined JUndefined)
     (requests (events (run (Domain.enableAccount (JStr "acc123")
                               (JStr "example.api.identitynow.com") (JStr "test-token")
                               JUndefined JUndefined) offline)))
  /\ header "Authorization"
       (headers (enable_request "https://example.api.identitynow.com/v3/accounts/acc123/enable"
                   "test-token" JUndefined JUndefined))
     = Some "Bearer test-token".
Proof.
  assert (H : In (enable_request "https://example.api.identitynow.com/v3/accounts/acc123/enable"
                    "test-token" JUndefined JUndefined)
                 (requests (events (run (Domain.enableAccount (JStr "acc123")
                               (JStr "example.api.identitynow.com") (JStr "test-token")
                               JUndefined JUndefined) offline)))).
  { left. reflexivity. }
  split; [exact H |].
  exact (proj1 (proj2 (authorization_header "test-token")) _ _ _ _ _ _ _ H).
Defined.

(** ** The request body *)

Lemma JSON_stringify_defined :
  forall v, v <> JUndefined -> JSON_stringify v = Some (JSON_text v).
Proof.
  intros v Hv. unfold JSON_text.
  destruct v as [| | [|] | | | |]; try reflexivity. now contradict Hv.
Qed.

Lemma truthy_defined : forall v, truthy v = true -> v <> JUndefined.
Proof. intros v H ->. discriminate H. Qed.

Lemma not_nullish_defined : forall v, not_nullish v = true -> v <> JUndefined.
Proof. intros v H ->. discriminate H. Qed.

(** C5: the object serialised as request body has the key
    [externalVerificationId] exactly when that input is truthy and the key
    [forceProvisioning] exactly when that input is neither [undefined] nor
    [null], each with the input as value, and no other key; the JSON text has
    exactly those members, in that order; both revisions of [enableAccount]
    send that text.  In particular [false] is sent as [false], and an absent
    [forceProvisioning] leaves the key out. *)
Theorem request_body_keys :
  forall (evid fp : JsVal),
    assoc "externalVerificationId" (requestBody evid fp)
      = (if truthy evid then Some evid else None)
    /\ assoc "forceProvisioning" (requestBody evid fp)
      = (if not_nullish fp then Some fp else None)
    /\ (forall k v, In (k, v) (requestBody evid fp) ->
          k = "externalVerificationId" \/ k = "forceProvisioning")
    /\ JSON_stringify_object (requestBody evid fp)
      = "{" +:+ join_commas
                  ((if truthy evid
                    then [JSON_quote "externalVerificationId" +:+ ":" +:+ JSON_text evid]
                    else [])
                   ++ (if not_nullish fp
                       then [JSON_quote "forceProvisioning" +:+ ":" +:+ JSON_text fp]
                       else []))
        +:+ "}"
    /\ (forall accountId baseUrl token w n,
          exists req,
            requests (events (Utils.enableAccount accountId baseUrl (JStr token) evid fp w n))
              = [req]
            /\ body req = JSON_stringify_object (requestBody evid fp))
    /\ (forall accountId domain token w n req,
          In req (requests (events (Domain.enableAccount accountId domain (JStr token)
                                      evid fp w n))) ->
          body req = JSON_stringify_object (requestBody evid fp))
    /\ assoc "forceProvisioning" (requestBody evid (JBool false)) = Some (JBool false)
    /\ assoc "forceProvisioning" (requestBody evid JUndefined) = None
    /\ JSON_stringify_object (requestBody JUndefined JUndefined) = "{}"
    /\ JSON_stringify_object (requestBody JUndefined (JBool false))
       = "{" +:+ JSON_quote "forceProvisioning" +:+ ":false}".
Proof.
  intros evid fp.
  split; [| split; [| split; [| split; [| split; [| split; [| split; [| split; [| split]]]]]]]].
  - unfold requestBody. destruct (truthy evid), (not_nullish fp); reflexivity.
  - unfold requestBody. destruct (truthy evid), (not_nullish fp); reflexivity.
  - intros k v. unfold requestBody.
    destruct (truthy evid), (not_nullish fp); cbn;
      intuition (try match goal with H : (_, _) = (_, _) |- _ => inversion H end; auto).
  - unfold requestBody, JSON_stringify_object.
    destruct (truthy evid) eqn:Te, (not_nullish fp) eqn:Nf; cbn [app JSON_stringify];
      repeat match goal with
             | H : truthy _ = true |- _ =>
                 rewrite (JSON_stringify_defined _ (truthy_defined _ H)); clear H
             | H : not_nullish _ = true |- _ =>
                 rewrite (JSON_stringify_defined _ (not_nullish_defined _ H)); clear H
             end;
      reflexivity.
  - intros. rewrite Utils_enableAccount_run. cbv zeta.
    match goal with |- context [fetch_outcome w n ?r] =>
      exists r; destruct (fetch_outcome w n r) end; split; reflexivity.
  - intros accountId domain token w n req. rewrite Domain_enableAccount_run.
    destruct (base_origin w _); [| intros []]. cbv zeta.
    case_fetch; (intros [<- | []]; reflexivity).
  - unfold requestBody. destruct (truthy evid); reflexivity.
  - unfold requestBody. destruct (truthy evid); reflexivity.
  - reflexivity.
  - reflexivity.
Qed.

(** An instance of the body theorem: the body of an actual request. *)
Lemma request_body_keys_witness :
  In (enable_request "https://example.api.identitynow.com/v3/accounts/acc123/enable"
        "test-token" (JStr "ext456") (JBool false))
     (requests (events (run (Domain.enableAccount (JStr "acc123")
                               (JStr "example.api.identitynow.com") (JStr "test-token")
                               (JStr "ext456") (JBool false)) offline)))
  /\ body (enable_request "https://example.api.identitynow.com/v3/accounts/acc123/enable"
             "test-token" (JStr "ext456") (JBool false))
     = "{" +:+ JSON_quote "externalVerificationId" +:+ ":" +:+ JSON_quote "ext456" +:+ ","
           +:+ JSON_quote "forceProvisioning" +:+ ":false}".
Proof.
  assert (H : In (enable_request "https://example.api.identitynow.com/v3/accounts/acc123/enable"
                    "test-token" (JStr "ext456") (JBool false))
                 (requests (events (run (Domain.enableAccount (JStr "acc123")
                               (JStr "example.api.identitynow.com") (JStr "test-token")
                               (JStr "ext456") (JBool false)) offline)))).
  { left. reflexivity. }
  split; [exact H |].
  pose proof (request_body_keys (JStr "ext456") (JBool false)) as K.
  destruct K as (_ & _ & _ & _ & _ & K & _).
  rewrite (K _ _ _ _ _ _ H). reflexivity.
Defined.

(** ** The error entry point of the domain revision *)

(** Neither test passes: the handler logs twice and throws. *)
Lemma error_fatal :
  forall (params : Params) (context : Context) (w : World) (n : nat),
    Domain.isRateLimited (error params) = false ->
    Domain.isServiceError (error params) = false ->
    Domain.error params context w n
    = mkRun (Throw (unrecoverable params)) [failed_log params; unable_log params] n.
Proof.
  intros params context w n Hr Hs.
  unfold Domain.error. rewrite Hr, Hs. reflexivity.
Qed.

(** C3: an error with status 400, 401, 403 or 404 whose message contains
    neither [429] nor [rate limit] makes the error entry point throw the
    unrecoverable error at once: its only effects are two console lines, so it
    waits for no back-off and sends no request. *)
Theorem error_fatal_status :
  forall (params : Params) (context : Context) (w : World) (code : Z),
    In code [400; 401; 403; 404] ->
    statusCode (error params) = JNum code ->
    includes (message (error params)) "429" = false ->
    includes (message (error params)) "rate limit" = false ->
    run (Domain.error params context) w
    = mkRun (Throw (new_Error ("Unrecoverable error enabling account "
                               +:+ ToString (accountId params) +:+ ": "
                               +:+ message (error params))))
            [failed_log params; unable_log params] 0
    /\ timeouts (events (run (Domain.error params context) w)) = []
    /\ requests (events (run (Domain.error params context) w)) = [].
Proof.
  intros params context w code Hcode Hstatus H429 Hrate.
  assert (Hrun : run (Domain.error params context) w
                 = mkRun (Throw (unrecoverable params))
                         [failed_log params; unable_log params] 0).
  { apply error_fatal.
    - unfold Domain.isRateLimited. rewrite Hstatus, H429, Hrate.
      cbn in Hcode. intuition (subst; reflexivity).
    - unfold Domain.isServiceError. rewrite Hstatus.
      cbn in Hcode. intuition (subst; reflexivity). }
  rewrite Hrun. repeat split.
Qed.

(** An instance of the theorem on fatal statuses: the repository's test for
    unrecoverable errors, status 401 with empty secrets. *)
Lemma error_fatal_status_witness :
  run (Domain.error unauthorized empty_context) offline
  = mkRun (Throw (new_Error
                    "Unrecoverable error enabling account acc123: Authentication failed"))
          [failed_log unauthorized; unable_log unauthorized] 0
  /\ timeouts (events (run (Domain.error unauthorized empty_context) offline)) = []
  /\ requests (events (run (Domain.error unauthorized empty_context) offline)) = [].
Proof.
  apply (error_fatal_status unauthorized empty_context offline 401).
  - cbn. tauto.
  - reflexivity.
  - reflexivity.
  - reflexivity.
Defined.

(** One [if] block: the back-off comes first, nothing else waits, and at most
    one request follows. *)
Lemma retry_run :
  forall params context waiting ms retrying succeeded fallback method w n,
    let r := Domain.retry params context waiting ms retrying succeeded fallback method w n in
    exists tail,
      events r = Domain.backoff waiting ms (accountId params) retrying ++ tail
      /\ timeouts tail = []
      /\ (length (requests tail) <= 1)%nat
      /\ retry_sent params context w tail.
Proof.
  intros. subst r. unfold Domain.retry, console_log, sleep.
  rewrite !bind_emit. cbn [outcome events calls]. rewrite bind_lift.
  unfold secret, retry_sent.
  destruct (secrets context) as [sec |]; [| exists []; cbn; repeat split; [lia | discriminate]].
  destruct (sec !! "BEARER_AUTH_TOKEN") as [token |] eqn:Htoken; cbn [of_option].
  - unfold bind at 1. rewrite Domain_enableAccount_run.
    destruct (base_origin w _) as [origin | e] eqn:Horigin; cbn [outcome events calls].
    + cbv zeta. fold (retry_request params origin token).
      destruct (fetch_outcome w n _) as [resp | e]; cbn [outcome events calls].
      * destruct (ok resp).
        -- rewrite bind_lift. destruct (json resp) as [responseData | e].
           ++ rewrite bind_emit. unfold bind. rewrite enabled_result_run.
              cbn [outcome events calls].
              eexists. split; [reflexivity |].
              destruct (get_prop responseData "id"); cbn;
                (repeat split; [lia |]); intros ? ? ? [= <-] ? ?; simplify_eq; eauto.
           ++ cbn. eexists. split; [reflexivity |].
              (repeat split; [cbn; lia |]); intros ? ? ? [= <-] ? ?; simplify_eq; eauto.
        -- cbn. eexists. split; [reflexivity |].
           (repeat split; [cbn; lia |]); intros ? ? ? [= <-] ? ?; simplify_eq; eauto.
      * eexists. split; [reflexivity |].
        (repeat split; [cbn; lia |]); intros ? ? ? [= <-] ? ?; simplify_eq; eauto.
    + exists []. cbn. repeat split; [lia |]. intros ? ? ? [= <-] ? ?; simplify_eq.
  - exists []. unfold bind, Domain.enableAccount, URL_href, bind, lift, authHeader.
    destruct (base_origin w _); cbn; (repeat split; [lia |]); intros ? ? ? [= <-] ? ?; simplify_eq.
Qed.

Lemma retry_sent_app :
  forall params context w tail more,
    retry_sent params context w tail -> retry_sent params context w (tail ++ more).
Proof.
  intros params context w tail more H sec token origin Hs Ht Ho.
  destruct (H sec token origin Hs Ht Ho) as [rest ->]. now exists (rest ++ more).
Qed.

(** C2, amended: for an error that carries no status, or the status 429, or
    whose message holds neither [429] nor [rate limit], the error entry point
    takes the rate-limit path exactly when the status is the number 429 or,
    without a status, the message contains [429] or, in this exact letter
    case, [rate limit]; it then logs, hands the timer the rate-limit back-off
    and, when the token is configured and the base address parses, re-sends
    the request.  Such an error that does not take the rate-limit path takes
    the service-error path exactly when its status is 502, 503 or 504, with
    the service-error back-off.  Any other such error is thrown as
    unrecoverable without a wait or a request.  An error with another status
    whose message holds one of the two texts is left out. *)
Theorem error_classification :
  forall (params : Params) (context : Context) (w : World),
    let e := error params in
    let r := run (Domain.error params context) w in
    statusCode e = JUndefined \/ statusCode e = JNum 429 \/ mentions_rate_limit e = false ->
    (Domain.isRateLimited e = true <->
       statusCode e = JNum 429
       \/ (statusCode e = JUndefined
           /\ (includes (message e) "429" = true
               \/ includes (message e) "rate limit" = true)))
    /\ (Domain.isServiceError e = true <->
          statusCode e = JNum 502 \/ statusCode e = JNum 503 \/ statusCode e = JNum 504)
    /\ (if Domain.isRateLimited e then
          exists tail,
            events r = failed_log params :: rate_limit_backoff params context ++ tail
            /\ retry_sent params context w tail
        else if Domain.isServiceError e then
          exists tail,
            events r = failed_log params :: service_backoff params context ++ tail
            /\ retry_sent params context w tail
        else
          r = mkRun (Throw (unrecoverable params)) [failed_log params; unable_log params] 0).
Proof.
  intros params context w e r Hscope. split; [| split].
  - unfold Domain.isRateLimited, strict_eq_num, mentions_rate_limit in *.
    rewrite !orb_true_iff. rewrite orb_false_iff in Hscope.
    destruct (statusCode e) as [| | | m | | |] eqn:Hstatus;
      try (intuition congruence).
    rewrite Z.eqb_eq. intuition congruence.
  - unfold Domain.isServiceError, array_includes, strict_eq_num. cbn [existsb].
    rewrite !orb_true_iff.
    destruct (statusCode e) as [| | | m | | |]; try (intuition congruence).
    rewrite !Z.eqb_eq. intuition congruence.
  - subst r. destruct (Domain.isRateLimited e) eqn:Hr; [| destruct (Domain.isServiceError e) eqn:Hs].
    + unfold run, Domain.error. fold e. rewrite Hr. unfold console_error. rewrite bind_emit.
      cbn [events]. unfold bind at 1.
      match goal with |- context [Domain.retry ?a ?b ?c ?d ?e ?f ?g ?h ?w ?n] =>
        destruct (retry_run a b c d e f g h w n) as (tail & Hev & _ & _ & Hsent);
        destruct (outcome (Domain.retry a b c d e f g h w n)) end;
        cbn [events]; rewrite Hev.
      * eexists. rewrite <- app_assoc. split; [reflexivity |]. now apply retry_sent_app.
      * exists tail. split; [reflexivity | assumption].
    + unfold run, Domain.error. fold e. rewrite Hr, Hs. unfold console_error. rewrite bind_emit.
      cbn [events]. unfold bind at 1. cbn [ret outcome events calls app]. unfold bind at 1.
      match goal with |- context [Domain.retry ?a ?b ?c ?d ?e ?f ?g ?h ?w ?n] =>
        destruct (retry_run a b c d e f g h w n) as (tail & Hev & _ & _ & Hsent);
        destruct (outcome (Domain.retry a b c d e f g h w n)) end;
        cbn [events]; rewrite Hev.
      * eexists. rewrite <- app_assoc. split; [reflexivity |]. now apply retry_sent_app.
      * exists tail. split; [reflexivity | assumption].
    + now apply error_fatal.
Qed.

(** An instance of the classification theorem: the repository's rate-limit
    test, status 429 with a back-off of one second. *)
Lemma error_classification_witness :
  exists rest,
    events (run (Domain.error (failure (JNum 429) "HTTP 429")
                   {| data := JUndefined;
                      environment := Some {[ "RATE_LIMIT_BACKOFF_MS" := "1000" ]};
                      secrets := Some {[ "BEARER_AUTH_TOKEN" := "test-token" ]} |})
                (always accepted))
    = [failed_log (failure (JNum 429) "HTTP 429");
       EvConsole Log "Rate limited by SailPoint API - waiting 1000ms before retry" None;
       EvTimeout (Num 1000);
       EvConsole Log "Retrying account enable for account acc123 after rate limit backoff" None;
       EvFetch (enable_request "https://example.api.identitynow.com/v3/accounts/acc123/enable"
                  "test-token" JUndefined JUndefined)] ++ rest.
Proof.
  pose proof (error_classification (failure (JNum 429) "HTTP 429")
                {| data := JUndefined;
                   environment := Some {[ "RATE_LIMIT_BACKOFF_MS" := "1000" ]};
                   secrets := Some {[ "BEARER_AUTH_TOKEN" := "test-token" ]} |}
                (always accepted) (or_intror (or_introl eq_refl))) as (_ & _ & H).
  cbn in H. destruct H as (tail & Hev & Hsent).
  destruct (Hsent {[ "BEARER_AUTH_TOKEN" := "test-token" ]} "test-token"
              "https://example.api.identitynow.com" eq_refl eq_refl eq_refl) as (rest & ->).
  exists rest. exact Hev.
Defined.

(** C2, as worded, fails: a failure without status whose message reads
    [Rate Limit exceeded] is rate-limited by the wording, which does not
    look at letter case, but is thrown at once by the code, which does. *)
Lemma rate_limit_wording_differs :
  spec_isRateLimited (error capitalised_rate_limit) = true
  /\ Domain.isRateLimited (error capitalised_rate_limit) = false
  /\ run (Domain.error capitalised_rate_limit (token_context "test-token")) (always accepted)
     = mkRun (Throw (unrecoverable capitalised_rate_limit))
             [failed_log capitalised_rate_limit; unable_log capitalised_rate_limit] 0.
Proof.
  repeat split; vm_compute; reflexivity.
Qed.

(** A retry that is answered by an unsuccessful response: control falls out
    of the block after one request. *)
Lemma retry_failed :
  forall params context waiting ms retrying succeeded fallback method w n
         sec token origin response,
    secrets context = Some sec ->
    sec !! "BEARER_AUTH_TOKEN" = Some token ->
    base_origin w ("https://" +:+ ToString (sailpointDomain params)) = Return origin ->
    fetch_outcome w n (retry_request params origin token) = Resolved response ->
    ok response = false ->
    Domain.retry params context waiting ms retrying succeeded fallback method w n
    = mkRun (Return None)
            (Domain.backoff waiting ms (accountId params) retrying
             ++ [EvFetch (retry_request params origin token)])
            (S n).
Proof.
  intros params context waiting ms retrying succeeded fallback method w n
    sec token origin response Hsec Htoken Horigin Hfetch Hok.
  unfold Domain.retry, console_log, sleep.
  rewrite !bind_emit. cbn [outcome events calls]. rewrite bind_lift.
  unfold secret. rewrite Hsec, Htoken. cbn [of_option].
  unfold bind. rewrite Domain_enableAccount_run, Horigin. cbv zeta.
  fold (retry_request params origin token). rewrite Hfetch.
  cbn [outcome events calls]. rewrite Hok. reflexivity.
Qed.

(** X3: outside the overlap of the two tests the recovery is as specified: one
    back-off, one retry, and the unrecoverable error when the retry is
    answered by an unsuccessful response. *)
Lemma error_single_retry :
  forall params context w sec token origin response,
    Domain.isRateLimited (error params) && Domain.isServiceError (error params) = false ->
    Domain.isRateLimited (error params) || Domain.isServiceError (error params) = true ->
    secrets context = Some sec ->
    sec !! "BEARER_AUTH_TOKEN" = Some token ->
    base_origin w ("https://" +:+ ToString (sailpointDomain params)) = Return origin ->
    fetch_outcome w 0%nat (retry_request params origin token) = Resolved response ->
    ok response = false ->
    run (Domain.error params context) w
    = mkRun (Throw (unrecoverable params))
            (failed_log params
             :: (if Domain.isRateLimited (error params)
                 then rate_limit_backoff params context
                 else service_backoff params context)
             ++ [EvFetch (retry_request params origin token); unable_log params])
            1.
Proof.
  intros params context w sec token origin response Hand Hor Hsec Htoken Horigin Hfetch Hok.
  unfold run, Domain.error, console_error. rewrite bind_emit.
  destruct (Domain.isRateLimited (error params)) eqn:Hr;
    destruct (Domain.isServiceError (error params)) eqn:Hs; try discriminate.
  - rewrite bind_run.
    rewrite (retry_failed _ _ _ _ _ _ _ _ _ _ _ _ _ _ Hsec Htoken Horigin Hfetch Hok).
    cbn [outcome events calls]. unfold rate_limit_backoff, failed_log, unable_log, unrecoverable.
    rewrite <- app_assoc. reflexivity.
  - rewrite bind_run. cbn [ret outcome events calls]. rewrite bind_run.
    rewrite (retry_failed _ _ _ _ _ _ _ _ _ _ _ _ _ _ Hsec Htoken Horigin Hfetch Hok).
    cbn [outcome events calls]. unfold service_backoff, failed_log, unable_log, unrecoverable.
    rewrite <- app_assoc. reflexivity.
Qed.

(** In the overlap, a status of 502, 503 or 504 with a message that passes
    the rate-limit test, a failed first retry is followed by a second
    back-off and a second request. *)
Lemma error_overlap_retries_again :
  forall params context w sec token origin response,
    Domain.isRateLimited (error params) = true ->
    Domain.isServiceError (error params) = true ->
    secrets context = Some sec ->
    sec !! "BEARER_AUTH_TOKEN" = Some token ->
    base_origin w ("https://" +:+ ToString (sailpointDomain params)) = Return origin ->
    fetch_outcome w 0%nat (retry_request params origin token) = Resolved response ->
    ok response = false ->
    exists rest,
      events (run (Domain.error params context) w)
      = failed_log params
        :: rate_limit_backoff params context
        ++ EvFetch (retry_request params origin token)
        :: service_backoff params context
        ++ EvFetch (retry_request params origin token) :: rest.
Proof.
  intros params context w sec token origin response Hr Hs Hsec Htoken Horigin Hfetch Hok.
  unfold run, Domain.error, console_error. rewrite bind_emit, Hr, Hs.
  rewrite bind_run.
  rewrite (retry_failed _ _ _ _ _ _ _ _ _ _ _ _ _ _ Hsec Htoken Horigin Hfetch Hok).
  cbn [outcome events calls]. rewrite bind_run.
  match goal with |- context [Domain.retry ?a ?b ?c ?d ?e ?f ?g ?h ?w ?n] =>
    destruct (retry_run a b c d e f g h w n) as (tail & Hev & _ & _ & Hsent);
    destruct (outcome (Domain.retry a b c d e f g h w n)) end;
    cbn [events]; rewrite Hev;
    destruct (Hsent sec token origin Hsec Htoken Horigin) as (rest & ->);
    eexists; unfold rate_limit_backoff, service_backoff, failed_log;
    rewrite <- !app_assoc; cbn [app]; reflexivity.
Qed.

(** C1: the code at a failing input.  The failure has status 503 and a
    message that contains [rate limit].  When every retry is answered 503,
    the rate-limit block waits and retries, its retry fails, control falls
    into the service-error block, which waits and retries again: two requests
    in one recovery invocation, and only then the unrecoverable error.  When
    the second retry is accepted, the handler returns a success although its
    first retry had failed. *)
Theorem error_retries_twice :
  let r := run (Domain.error unavailable_rate_limit (token_context "test-token"))
               (always unavailable) in
  let r' := run (Domain.error unavailable_rate_limit (token_context "test-token"))
                (script [Resolved unavailable; Resolved accepted]) in
  requests (events r)
    = [enable_request "https://example.api.identitynow.com/v3/accounts/acc123/enable"
         "test-token" JUndefined JUndefined;
       enable_request "https://example.api.identitynow.com/v3/accounts/acc123/enable"
         "test-token" JUndefined JUndefined]
  /\ timeouts (events r) = [Num 30000; Num 10000]
  /\ calls r = 2%nat
  /\ outcome r = Throw (unrecoverable unavailable_rate_limit)
  /\ calls r' = 2%nat
  /\ outcome r'
     = Return (JObj [("accountId", JStr "acc123");
                     ("enabled", JBool true);
                     ("taskId", JStr "task789");
                     ("message",
                      JStr "Account enable operation initiated after service recovery");
                     ("enabledAt", JStr "2024-01-01T00:00:00.000Z");
                     ("recoveryMethod", JStr "service_retry")]).
Proof.
  repeat split; vm_compute; reflexivity.
Qed.

Lemma outcome_bind :
  forall {A B} (m : M A) (k : A -> M B) (w : World) (n : nat),
    outcome (bind m k w n)
    = match outcome (m w n) with
      | Return a => outcome (k a w (calls (m w n)))
      | Throw e => Throw e
      end.
Proof. intros. unfold bind. destruct (outcome (m w n)); reflexivity. Qed.

(** ** [invoke] *)

(** What [invoke] throws after an unsuccessful response. *)
Lemma fail_response_run :
  forall {A} (response : Response) (w : World) (n : nat),
    outcome (@fail_response A response w n)
    = match json response with
      | Return (JUndefined | JNull) | Throw _ =>
          match text response with
          | Return errorText =>
              Throw (failure_error (text_message errorText (status response))
                                   (status response))
          | Throw e => Throw e
          end
      | Return errorBody =>
          Throw (failure_error (body_message errorBody (status response)) (status response))
      end.
Proof.
  intros. unfold fail_response, try_catch, errorMessage_of_json, errorMessage_of_text.
  rewrite outcome_bind. 
  destruct (json response) as [errorBody | e]; cbn.
  - unfold body_message, prop. destruct errorBody; cbn; try reflexivity.
    all: try (destruct (text response); reflexivity).
    destruct (truthy _); cbn; [reflexivity |].
    destruct (truthy _); reflexivity.
  - destruct (text response); reflexivity.
Qed.

(** The outcome of [invoke] of the utils revision once the request is
    answered. *)
Lemma invoke_outcome :
  forall resolve getAuth params context w resolvedParams baseUrl response,
    answered resolve getAuth params context w resolvedParams baseUrl response ->
    outcome (run (Utils.invoke resolve getAuth params context) w)
    = if ok response then
        match json response with
        | Return responseData =>
            match get_prop responseData "id" with
            | Return id =>
                Return (JObj [("accountId", accountId resolvedParams);
                              ("enabled", JBool true);
                              ("taskId", js_or id (prop responseData "taskId"));
                              ("message", js_or (prop responseData "message")
                                            (JStr "Account enable operation initiated"));
                              ("enabledAt", JStr (now w));
                              ("address", JStr baseUrl)])
            | Throw e => Throw e
            end
        | Throw e => Throw e
        end
      else outcome (@fail_response JsVal response w 0%nat).
Proof.
  intros resolve getAuth params context w rp baseUrl response
    (errors & authorization & ev & n & Hresolve & Hbase & Hauth & Hfetch).
  unfold run, Utils.invoke. rewrite Hresolve.
  rewrite outcome_bind.
  assert (Hpre : forall k, (if (0 <? length errors)%nat
           then console_warn "Template resolution errors:" (JArr errors) else ret tt) w k
          = mkRun (Return tt) (if (0 <? length errors)%nat then [EvConsole Warn "Template resolution errors:" (Some (JArr errors))] else []) k).
  { intros k. destruct (0 <? length errors)%nat; reflexivity. }
  rewrite Hpre. cbn [outcome calls].
  unfold Utils.invoke_resolved, console_log. rewrite bind_emit. cbn [outcome].
  rewrite bind_lift, Hbase. rewrite outcome_bind, Hauth. cbn [outcome calls].
  rewrite outcome_bind, Utils_enableAccount_run. cbv zeta.
  fold (Utils_request rp baseUrl authorization). rewrite Hfetch. cbn [outcome calls].
  destruct (ok response).
  - rewrite bind_lift. destruct (json response) as [responseData | e]; [| reflexivity].
    rewrite bind_emit. cbn [outcome]. rewrite enabled_result_run. cbn [outcome].
    destruct (get_prop responseData "id"); reflexivity.
  - rewrite !fail_response_run. reflexivity.
Qed.

Lemma truthy_JStr : forall s, s <> EmptyString -> truthy (JStr s) = true.
Proof.
  intros s Hs. cbn. destruct (String.eqb_spec s EmptyString); [contradiction | reflexivity].
Qed.

(** X8: the domain revision handles the response in the same way, without
    the [address] field. *)
Lemma Domain_invoke_outcome :
  forall params context w id domain sec token origin response,
    accountId params = JStr id -> id <> EmptyString ->
    sailpointDomain params = JStr domain -> domain <> EmptyString ->
    secrets context = Some sec ->
    sec !! "BEARER_AUTH_TOKEN" = Some token -> token <> EmptyString ->
    base_origin w ("https://" +:+ domain) = Return origin ->
    fetch_outcome w 0%nat (retry_request params origin token) = Resolved response ->
    outcome (run (Domain.invoke params context) w)
    = if ok response then
        match json response with
        | Return responseData =>
            match get_prop responseData "id" with
            | Return taskId =>
                Return (JObj [("accountId", JStr id);
                              ("enabled", JBool true);
                              ("taskId", js_or taskId (prop responseData "taskId"));
                              ("message", js_or (prop responseData "message")
                                            (JStr "Account enable operation initiated"));
                              ("enabledAt", JStr (now w))])
            | Throw e => Throw e
            end
        | Throw e => Throw e
        end
      else outcome (@fail_response JsVal response w 0%nat).
Proof.
  intros params context w id domain sec token origin response
    Hid Hid' Hdomain Hdomain' Hsec Htoken Htoken' Horigin Hfetch.
  unfold run, Domain.invoke, console_log. rewrite bind_emit. cbn [outcome].
  unfold secret_opt, secret, retry_request in *.
  rewrite Hid, Hdomain, Hsec, Htoken in *. cbn [of_option is_string negb orb ToString] in *.
  rewrite !truthy_JStr by assumption. cbn [negb orb].
  rewrite bind_lift, outcome_bind, Domain_enableAccount_run. cbn [ToString].
  rewrite Horigin. cbv zeta. rewrite Hfetch. cbn [outcome calls].
  destruct (ok response).
  - rewrite bind_lift. destruct (json response) as [responseData | e]; [| reflexivity].
    rewrite bind_emit. cbn [outcome]. rewrite enabled_result_run. cbn [outcome].
    destruct (get_prop responseData "id"); reflexivity.
  - rewrite !fail_response_run. reflexivity.
Qed.

(** C7, amended: when [invoke] receives a successful response whose body
    parses to a value other than [null], it returns the result with the
    resolved account identifier, [enabled: true], [taskId] the body's [id]
    when that is truthy and the body's [taskId] otherwise, [message] the
    body's [message] when that is truthy and the literal otherwise, the clock
    reading, and the base address. *)
Theorem invoke_result :
  forall resolve getAuth params context w resolvedParams baseUrl response responseData,
    answered resolve getAuth params context w resolvedParams baseUrl response ->
    ok response = true ->
    json response = Return responseData ->
    not_nullish responseData = true ->
    outcome (run (Utils.invoke resolve getAuth params context) w)
    = Return (JObj [("accountId", accountId resolvedParams);
                    ("enabled", JBool true);
                    ("taskId", if truthy (prop responseData "id")
                               then prop responseData "id"
                               else prop responseData "taskId");
                    ("message", if truthy (prop responseData "message")
                                then prop responseData "message"
                                else JStr "Account enable operation initiated");
                    ("enabledAt", JStr (now w));
                    ("address", JStr baseUrl)]).
Proof.
  intros resolve getAuth params context w rp baseUrl response responseData
    Hanswered Hok Hjson Hbody.
  rewrite (invoke_outcome _ _ _ _ _ _ _ _ Hanswered), Hok, Hjson.
  unfold prop, js_or.
  destruct responseData; try discriminate Hbody; reflexivity.
Qed.

Lemma utils_params_answered :
  forall response,
    answered no_templates bearer_only_header utils_params (token_context "test-token")
      (always response) utils_params "https://example.api.identitynow.com" response.
Proof.
  intros response. exists [], "Bearer test-token", [], 0%nat. repeat split.
Qed.

(** An instance of the result theorem: the repository's test with a body
    that has only [taskId]. *)
Lemma invoke_result_witness :
  outcome (run (Utils.invoke no_templates bearer_only_header utils_params
                  (token_context "test-token"))
               (always (json_response true 202 (JObj [("taskId", JStr "task789")]))))
  = Return (JObj [("accountId", JStr "acc123");
                  ("enabled", JBool true);
                  ("taskId", JStr "task789");
                  ("message", JStr "Account enable operation initiated");
                  ("enabledAt", JStr "2024-01-01T00:00:00.000Z");
                  ("address", JStr "https://example.api.identitynow.com")]).
Proof.
  exact (invoke_result no_templates bearer_only_header utils_params
           (token_context "test-token")
           (always (json_response true 202 (JObj [("taskId", JStr "task789")])))
           utils_params "https://example.api.identitynow.com"
           (json_response true 202 (JObj [("taskId", JStr "task789")]))
           (JObj [("taskId", JStr "task789")])
           (utils_params_answered _) eq_refl eq_refl eq_refl).
Defined.

(** C7, as worded, fails.  A body whose [id] and [message] are present but
    empty yields the [taskId] field and the literal, not the two fields; a
    successful response whose body is not JSON, or is [null], yields no result
    at all: [invoke] throws. *)
Lemma success_wording_differs :
  outcome (run (Utils.invoke no_templates bearer_only_header utils_params
                  (token_context "test-token"))
               (always (json_response true 202 empty_id_body)))
  = Return (JObj [("accountId", JStr "acc123");
                  ("enabled", JBool true);
                  ("taskId", JStr "task789");
                  ("message", JStr "Account enable operation initiated");
                  ("enabledAt", JStr "2024-01-01T00:00:00.000Z");
                  ("address", JStr "https://example.api.identitynow.com")])
  /\ spec_taskId empty_id_body = JStr EmptyString
  /\ spec_message empty_id_body = JStr EmptyString
  /\ outcome (run (Utils.invoke no_templates bearer_only_header utils_params
                     (token_context "test-token"))
                  (always (consumed_response true 204)))
     = Throw syntax_error
  /\ outcome (run (Utils.invoke no_templates bearer_only_header utils_params
                     (token_context "test-token"))
                  (always (json_response true 200 JNull)))
     = Throw (TypeError "Cannot read properties of null (reading 'id')").
Proof.
  repeat split; vm_compute; reflexivity.
Qed.

(** C6: the code at a failing input.  The endpoint answers with an
    unsuccessful status and a body that is not JSON.  [json()] reads the body
    and rejects, and the [catch] block asks for the text.  Given a response
    that still yields its text, as the mock of the repository's test does,
    [invoke] throws the error the claim describes: the text, or the HTTP
    status when the text is empty, with the numeric status attached.  But a
    response of [fetch] can be read once: after [json()] the call of [text()]
    rejects, and [invoke] throws that rejection instead, which is no enable
    failure and carries neither the text nor the status. *)
Theorem invoke_non_json_error_body :
  forall resolve getAuth params context w resolvedParams baseUrl response e,
    answered resolve getAuth params context w resolvedParams baseUrl response ->
    ok response = false ->
    json response = Throw e ->
    (forall errorText,
        text response = Return errorText ->
        outcome (run (Utils.invoke resolve getAuth params context) w)
        = Throw (failure_error (text_message errorText (status response)) (status response)))
    /\ (forall unreadable,
          text response = Throw unreadable ->
          outcome (run (Utils.invoke resolve getAuth params context) w) = Throw unreadable).
Proof.
  intros resolve getAuth params context w rp baseUrl response e Hanswered Hok Hjson.
  rewrite (invoke_outcome _ _ _ _ _ _ _ _ Hanswered), Hok, fail_response_run, Hjson.
  split.
  - intros errorText ->. reflexivity.
  - intros unreadable ->. reflexivity.
Qed.

(** An instance of the theorem on a body that is not JSON: a 502 whose body
    reads [Bad Gateway], as the test mocks it and as [fetch] delivers it. *)
Lemma invoke_non_json_error_body_witness :
  outcome (run (Utils.invoke no_templates bearer_only_header utils_params
                  (token_context "test-token"))
               (always (text_response false 502 "Bad Gateway")))
  = Throw (failure_error "Failed to enable account: Bad Gateway" 502)
  /\ outcome (run (Utils.invoke no_templates bearer_only_header utils_params
                     (token_context "test-token"))
                  (always (consumed_response false 502)))
     = Throw body_used.
Proof.
  split.
  - exact (proj1 (invoke_non_json_error_body no_templates bearer_only_header utils_params
                    (token_context "test-token")
                    (always (text_response false 502 "Bad Gateway"))
                    utils_params "https://example.api.identitynow.com"
                    (text_response false 502 "Bad Gateway") syntax_error
                    (utils_params_answered _) eq_refl eq_refl)
                 "Bad Gateway" eq_refl).
  - exact (proj2 (invoke_non_json_error_body no_templates bearer_only_header utils_params
                    (token_context "test-token")
                    (always (consumed_response false 502))
                    utils_params "https://example.api.identitynow.com"
                    (consumed_response false 502) syntax_error
                    (utils_params_answered _) eq_refl eq_refl)
                 body_used eq_refl).
Defined.

(** ** The address of the request *)

Lemma all_chars_app :
  forall p a b, all_chars p (a +:+ b) = all_chars p a && all_chars p b.
Proof.
  induction a as [| c a IH]; intros b; cbn; [reflexivity |].
  now rewrite IH, andb_assoc.
Qed.

(** The code of one character: the character itself, or a percent sign and
    two upper-case hexadecimal digits that do not spell 2E. *)
Lemma encode_char :
  forall c : ascii,
    (uriUnescaped c = true /\ c <> "%"%char)
    \/ (uriUnescaped c = false
        /\ exists x y, percentEncode c = String "%" (String x (String y EmptyString))
                       /\ uriUnescaped x = true /\ uriUnescaped y = true
                       /\ y <> "e"%char
                       /\ (x, y) <> ("2"%char, "E"%char)).
Proof.
  intros [[] [] [] [] [] [] [] []];
    first [ left; split; [reflexivity | discriminate]
          | right; split; [reflexivity |];
            eexists; eexists; split; [reflexivity |];
            split; [reflexivity |]; split; [reflexivity |]; split; discriminate ].
Qed.

Lemma all_chars_impl :
  forall (p q : ascii -> bool) s,
    (forall c, p c = true -> q c = true) ->
    all_chars p s = true -> all_chars q s = true.
Proof.
  intros p q s Hpq. induction s as [| c s IH]; cbn; [reflexivity |].
  rewrite !andb_true_iff. intros [Hc Hs]. split; [now apply Hpq | now apply IH].
Qed.

Lemma encodeURIComponent_chars :
  forall s, all_chars unescaped_or_percent (encodeURIComponent s) = true.
Proof.
  induction s as [| c s IH]; [reflexivity |].
  cbn [encodeURIComponent]. rewrite all_chars_app, IH, andb_true_r.
  destruct (encode_char c) as [[Hc _] | (Hc & x & y & Hxy & Hx & Hy & _)]; rewrite Hc.
  - cbn. unfold unescaped_or_percent. now rewrite Hc.
  - rewrite Hxy. cbn. unfold unescaped_or_percent. now rewrite Hx, Hy.
Qed.

Lemma reserved_not_kept :
  forall c, char_in c uriReserved = true -> unescaped_or_percent c = false.
Proof.
  intros c H. cbn in H.
  repeat (apply orb_true_iff in H as [H | H];
          [apply Ascii.eqb_eq in H; subst c; reflexivity |]).
  discriminate H.
Qed.

(** No reserved character survives the encoding. *)
Lemma encodeURIComponent_escapes_reserved :
  forall s, all_chars (fun c => negb (char_in c uriReserved)) (encodeURIComponent s) = true.
Proof.
  intros s. apply (all_chars_impl unescaped_or_percent); [| apply encodeURIComponent_chars].
  intros c Hc. destruct (char_in c uriReserved) eqn:E; [| reflexivity].
  apply reserved_not_kept in E. congruence.
Qed.

Lemma split_on_segment :
  forall sep a b,
    all_chars (fun c => negb (Ascii.eqb c sep)) a = true ->
    split_on sep (a +:+ String sep b) = a :: split_on sep b.
Proof.
  intros sep a b. induction a as [| c a IH]; cbn -[Ascii.eqb].
  - intros _. now rewrite Ascii.eqb_refl.
  - rewrite andb_true_iff, negb_true_iff. intros [Hc Ha].
    rewrite Hc, (IH Ha). reflexivity.
Qed.

Lemma encodeURIComponent_no_slash :
  forall s, all_chars (fun c => negb (Ascii.eqb c "/")) (encodeURIComponent s) = true.
Proof.
  intros s. apply (all_chars_impl unescaped_or_percent); [| apply encodeURIComponent_chars].
  intros c Hc. destruct (Ascii.eqb c "/") eqn:E; [| reflexivity].
  apply Ascii.eqb_eq in E. subst c. discriminate Hc.
Qed.

Lemma encodeURIComponent_nil :
  forall s, encodeURIComponent s = EmptyString -> s = EmptyString.
Proof.
  intros [| c s]; [reflexivity |]. cbn [encodeURIComponent].
  destruct (encode_char c) as [[Hc _] | (Hc & x & y & Hxy & _)]; rewrite Hc.
  - discriminate.
  - rewrite Hxy. discriminate.
Qed.

(** An encoding that starts with a dot encodes a string that starts with a
    dot. *)
Lemma encodeURIComponent_dot :
  forall s rest,
    encodeURIComponent s = String "." rest ->
    exists s', s = String "." s' /\ encodeURIComponent s' = rest.
Proof.
  intros [| c s] rest; [discriminate |]. cbn [encodeURIComponent].
  destruct (encode_char c) as [[Hc _] | (Hc & x & y & Hxy & _)]; rewrite Hc.
  - cbn. intros [= -> <-]. now exists s.
  - rewrite Hxy. discriminate.
Qed.

(** No encoding starts with an escaped dot. *)
Lemma encodeURIComponent_no_escaped_dot :
  forall s e rest,
    encodeURIComponent s = String "%" (String "2" (String e rest)) ->
    e <> "e"%char /\ e <> "E"%char.
Proof.
  intros [| c s] e rest; [discriminate |]. cbn [encodeURIComponent].
  destruct (encode_char c) as [[Hc Hp] | (Hc & x & y & Hxy & _ & _ & Hy & HxY)]; rewrite Hc.
  - cbn. intros [= -> _]. now contradict Hp.
  - rewrite Hxy. cbn. intros [= -> -> _]. split; [assumption |].
    intros ->. now apply HxY.
Qed.

Lemma encoded_single_dot :
  forall s, is_single_dot (encodeURIComponent s) = true -> s = ".".
Proof.
  intros s H. unfold is_single_dot in H. cbn [existsb] in H.
  rewrite !orb_true_iff, !String.eqb_eq in H.
  destruct H as [H | [H | [H | H]]]; try discriminate H.
  - apply encodeURIComponent_dot in H as (s' & -> & H).
    now rewrite (encodeURIComponent_nil _ H).
  - apply encodeURIComponent_no_escaped_dot in H. tauto.
  - apply encodeURIComponent_no_escaped_dot in H. tauto.
Qed.

Lemma encoded_double_dot :
  forall s, is_double_dot (encodeURIComponent s) = true -> s = "..".
Proof.
  intros s H. unfold is_double_dot in H. cbn [existsb] in H.
  rewrite !orb_true_iff, !String.eqb_eq in H.
  destruct H as [H | [H | [H | [H | [H | [H | [H | [H | [H | H]]]]]]]]];
    try discriminate H;
    try (apply encodeURIComponent_no_escaped_dot in H; tauto).
  - apply encodeURIComponent_dot in H as (s' & -> & H).
    apply encodeURIComponent_dot in H as (s'' & -> & H).
    now rewrite (encodeURIComponent_nil _ H).
  - apply encodeURIComponent_dot in H as (s' & -> & H).
    apply encodeURIComponent_no_escaped_dot in H. tauto.
  - apply encodeURIComponent_dot in H as (s' & -> & H).
    apply encodeURIComponent_no_escaped_dot in H. tauto.
Qed.

(** Unless the identifier is a dot segment, the URL parser leaves the path
    as [enableAccount] wrote it. *)
Lemma URL_pathname_plain :
  forall s,
    s <> "." -> s <> ".." ->
    URL_pathname ("/v3/accounts/" +:+ encodeURIComponent s +:+ "/enable")
    = "/v3/accounts/" +:+ encodeURIComponent s +:+ "/enable".
Proof.
  intros s H1 H2.
  assert (S1 : is_single_dot (encodeURIComponent s) = false).
  { destruct (is_single_dot _) eqn:E; [| reflexivity]. now apply encoded_single_dot in E. }
  assert (S2 : is_double_dot (encodeURIComponent s) = false).
  { destruct (is_double_dot _) eqn:E; [| reflexivity]. now apply encoded_double_dot in E. }
  unfold URL_pathname. cbn -[encodeURIComponent path_state serialize_path].
  rewrite (split_on_segment "/" _ "enable" (encodeURIComponent_no_slash s)).
  cbn -[encodeURIComponent is_single_dot is_double_dot]. rewrite S1, S2.
  reflexivity.
Qed.

(** The address of the request, in general.  The utils revision and the
    bundle hand [fetch] the base address followed by the path with the
    encoded identifier; the domain revision does so, with the parsed origin of
    its base address, for every identifier but the two dot segments. *)
Lemma request_url :
  forall (id : JsVal) (token : string) (evid fp : JsVal) (w : World) (n : nat),
    let encoded := encodeURIComponent (ToString id) in
    all_chars (fun c => negb (char_in c uriReserved)) encoded = true
    /\ (forall baseUrl,
          requests (events (Utils.enableAccount id baseUrl (JStr token) evid fp w n))
          = [enable_request (baseUrl +:+ "/v3/accounts/" +:+ encoded +:+ "/enable")
               token evid fp])
    /\ (forall domain req,
          ToString id <> "." -> ToString id <> ".." ->
          In req (requests (events (Domain.enableAccount id domain (JStr token) evid fp w n))) ->
          exists origin,
            base_origin w ("https://" +:+ ToString domain) = Return origin
            /\ req = enable_request (origin +:+ "/v3/accounts/" +:+ encoded +:+ "/enable")
                       token evid fp).
Proof.
  intros id token evid fp w n encoded. split; [| split].
  - apply encodeURIComponent_escapes_reserved.
  - intros baseUrl. rewrite Utils_enableAccount_run. cbv zeta.
    case_fetch; reflexivity.
  - intros domain req H1 H2. rewrite Domain_enableAccount_run.
    destruct (base_origin w _) as [origin | e]; [| intros []]. cbv zeta.
    rewrite (URL_pathname_plain _ H1 H2).
    case_fetch; (intros [<- | []]; exists origin; split; reflexivity).
Qed.

Example injection_id_encoded :
  encodeURIComponent "acc/123&test=1" = "acc%2F123%26test%3D1"
  /\ requests (events (run (Domain.invoke injection_id (token_context "test-token"))
                         (always accepted)))
     = [enable_request
          "https://example.api.identitynow.com/v3/accounts/acc%2F123%26test%3D1/enable"
          "test-token" JUndefined JUndefined].
Proof.
  split; vm_compute; reflexivity.
Qed.

(** C4: the code at a failing input.  The identifier [..] passes validation
    and is left as it is by [encodeURIComponent]; the platform's [URL] class
    then resolves it as a double-dot segment, so the domain revision sends its
    request to [/v3/enable]: the path holds no identifier and is not
    [/v3/accounts/../enable].  The identifier [.] is dropped likewise. *)
Theorem dot_segment_leaves_accounts :
  encodeURIComponent ".." = ".."
  /\ requests (events (run (Domain.invoke dot_dot (token_context "test-token"))
                         (always accepted)))
     = [enable_request "https://example.api.identitynow.com/v3/enable"
          "test-token" JUndefined JUndefined]
  /\ requests (events (run (Domain.invoke single_dot (token_context "test-token"))
                         (always accepted)))
     = [enable_request "https://example.api.identitynow.com/v3/accounts/enable"
          "test-token" JUndefined JUndefined].
Proof.
  repeat split; vm_compute; reflexivity.
Qed.

(** * Further properties of the code *)

(** ** The encoded identifier *)

Lemma percentDecode_char :
  forall (c : ascii) (rest : string),
    percentDecode ((if uriUnescaped c then String c EmptyString else percentEncode c) +:+ rest)
    = String c (percentDecode rest).
Proof.
  intros c rest.
  destruct c as [[] [] [] [] [] [] [] []]; reflexivity.
Qed.

Lemma percentDecode_encode :
  forall s, percentDecode (encodeURIComponent s) = s.
Proof.
  induction s as [| c s IH]; [reflexivity |].
  cbn [encodeURIComponent]. now rewrite percentDecode_char, IH.
Qed.

Lemma append_cancel_l :
  forall p a b : string, p +:+ a = p +:+ b -> a = b.
Proof.
  induction p as [| c p IH]; intros a b H; cbn in H; [exact H |].
  injection H as H. now apply IH.
Qed.

Lemma segment_cancel :
  forall a b r r' : string,
    all_chars (fun c => negb (Ascii.eqb c "/")) a = true ->
    all_chars (fun c => negb (Ascii.eqb c "/")) b = true ->
    a +:+ String "/" r = b +:+ String "/" r' -> a = b.
Proof.
  intros a b r r' Ha Hb H.
  apply (f_equal (split_on "/")) in H.
  rewrite !split_on_segment in H by assumption.
  now injection H.
Qed.

(** X1: the encoding of the account identifier loses nothing: two different
    identifiers have different encodings, and the utils revision and the
    bundle therefore send their requests to different addresses under the
    same base address. *)
Theorem distinct_ids_distinct_urls :
  forall (id id' : JsVal) (baseUrl token token' : string)
         (evid fp evid' fp' : JsVal) (w w' : World) (n n' : nat),
    (encodeURIComponent (ToString id) = encodeURIComponent (ToString id') ->
     ToString id = ToString id')
    /\ (map url (requests (events (Utils.enableAccount id baseUrl (JStr token) evid fp w n)))
        = map url (requests (events (Utils.enableAccount id' baseUrl (JStr token')
                                       evid' fp' w' n'))) ->
        ToString id = ToString id').
Proof.
  intros id id' baseUrl token token' evid fp evid' fp' w w' n n'.
  assert (Hinj : encodeURIComponent (ToString id) = encodeURIComponent (ToString id') ->
                 ToString id = ToString id').
  { intros H. rewrite <- (percentDecode_encode (ToString id)), H.
    apply percentDecode_encode. }
  split; [exact Hinj |].
  rewrite !Utils_enableAccount_run. cbv zeta.
  do 2 case_fetch; cbn [events requests map url enable_request]; intros [= H].
  all: apply Hinj; apply append_cancel_l in H;
    apply (append_cancel_l "/v3/accounts/") in H;
    apply (segment_cancel _ _ "enable" "enable") in H;
    [exact H | apply encodeURIComponent_no_slash | apply encodeURIComponent_no_slash].
Qed.

(** An instance of the theorem on distinct identifiers. *)
Lemma distinct_ids_distinct_urls_witness :
  ToString (JStr "acc123") = ToString (JStr "acc123").
Proof.
  exact (proj2 (distinct_ids_distinct_urls (JStr "acc123") (JStr "acc123")
                  "https://example.api.identitynow.com" "test-token" "test-token"
                  JUndefined JUndefined JUndefined JUndefined offline offline 0%nat 0%nat)
               eq_refl).
Defined.

(** X2: the address [enableAccount] hands to [fetch], for an identifier that
    is a string.  The encoded identifier holds none of the characters
    [; / ? : @ & = + $ , #].  The utils revision and the bundle hand [fetch]
    one URL string, the base address followed by the path with the encoded
    identifier; the domain revision hands it, for every identifier but the
    two dot segments, the parsed origin of its base address followed by that
    path.  For every identifier but the two dot segments a URL parser leaves
    that path as it was written, so what was appended is what is requested;
    for the dot segments the parser goes on to resolve them. *)
Theorem enable_request_address :
  forall (id token : string) (evid fp : JsVal) (w : World) (n : nat),
    let path := "/v3/accounts/" +:+ encodeURIComponent id +:+ "/enable" in
    all_chars (fun c => negb (char_in c uriReserved)) (encodeURIComponent id) = true
    /\ (forall baseUrl,
          requests (events (Utils.enableAccount (JStr id) baseUrl (JStr token) evid fp w n))
          = [enable_request (baseUrl +:+ path) token evid fp])
    /\ (id <> "." -> id <> ".." ->
        URL_pathname path = path
        /\ forall domain req,
             In req (requests (events (Domain.enableAccount (JStr id) (JStr domain)
                                         (JStr token) evid fp w n))) ->
             exists origin,
               base_origin w ("https://" +:+ domain) = Return origin
               /\ req = enable_request (origin +:+ path) token evid fp).
Proof.
  intros id token evid fp w n path. subst path. split; [| split].
  - apply encodeURIComponent_escapes_reserved.
  - intros baseUrl. rewrite Utils_enableAccount_run. cbv zeta. cbn [ToString].
    case_fetch; reflexivity.
  - intros H1 H2. split; [now apply URL_pathname_plain |].
    intros domain req. rewrite Domain_enableAccount_run. cbn [ToString].
    destruct (base_origin w _) as [origin | e]; [| intros []]. cbv zeta.
    rewrite (URL_pathname_plain _ H1 H2).
    case_fetch; (intros [<- | []]; exists origin; split; reflexivity).
Qed.

(** An instance of the theorem on the address: the identifier of the
    repository's injection test, in the domain revision. *)
Lemma enable_request_address_witness :
  URL_pathname "/v3/accounts/acc%2F123%26test%3D1/enable"
  = "/v3/accounts/acc%2F123%26test%3D1/enable"
  /\ exists origin,
       base_origin (always accepted) "https://example.api.identitynow.com" = Return origin
       /\ enable_request
            "https://example.api.identitynow.com/v3/accounts/acc%2F123%26test%3D1/enable"
            "test-token" JUndefined JUndefined
          = enable_request (origin +:+ "/v3/accounts/acc%2F123%26test%3D1/enable")
              "test-token" JUndefined JUndefined.
Proof.
  destruct (proj2 (proj2 (enable_request_address "acc/123&test=1" "test-token"
                            JUndefined JUndefined (always accepted) 0%nat))
              ltac:(discriminate) ltac:(discriminate)) as [Hpath Hreq].
  split; [exact Hpath |].
  exact (Hreq "example.api.identitynow.com" _ (or_introl eq_refl)).
Defined.

(** ** The recovery protocol of the domain revision *)

(** An instance of the lemma on a single retry: a 429 whose retry is answered
    by a 503. *)
Lemma error_single_retry_witness :
  run (Domain.error (failure (JNum 429) "HTTP 429") (token_context "test-token"))
      (always unavailable)
  = mkRun (Throw (unrecoverable (failure (JNum 429) "HTTP 429")))
          (failed_log (failure (JNum 429) "HTTP 429")
           :: rate_limit_backoff (failure (JNum 429) "HTTP 429") (token_context "test-token")
           ++ [EvFetch (retry_request (failure (JNum 429) "HTTP 429")
                          "https://example.api.identitynow.com" "test-token");
               unable_log (failure (JNum 429) "HTTP 429")])
          1.
Proof.
  exact (error_single_retry (failure (JNum 429) "HTTP 429") (token_context "test-token")
           (always unavailable) {[ "BEARER_AUTH_TOKEN" := "test-token" ]} "test-token"
           "https://example.api.identitynow.com" unavailable
           eq_refl eq_refl eq_refl eq_refl eq_refl eq_refl eq_refl).
Defined.

Lemma requests_app : forall a b, requests (a ++ b) = requests a ++ requests b.
Proof. induction a as [| [| |] a IH]; intros b; cbn; rewrite ?IH; reflexivity. Qed.

Lemma timeouts_app : forall a b, timeouts (a ++ b) = timeouts a ++ timeouts b.
Proof. induction a as [| [| |] a IH]; intros b; cbn; rewrite ?IH; reflexivity. Qed.

Lemma length_requests_app :
  forall a b, length (requests (a ++ b)) = (length (requests a) + length (requests b))%nat.
Proof.
  induction a as [| [| |] a IH]; intros b; cbn; rewrite ?IH; reflexivity.
Qed.

Lemma length_timeouts_app :
  forall a b, length (timeouts (a ++ b)) = (length (timeouts a) + length (timeouts b))%nat.
Proof.
  induction a as [| [| |] a IH]; intros b; cbn; rewrite ?IH; reflexivity.
Qed.

(** One [if] block waits once and sends at most one request. *)
Lemma retry_bounds :
  forall params context waiting ms retrying succeeded fallback method w n,
    let r := Domain.retry params context waiting ms retrying succeeded fallback method w n in
    length (timeouts (events r)) = 1%nat /\ (length (requests (events r)) <= 1)%nat.
Proof.
  intros params context waiting ms retrying succeeded fallback meth w n r. subst r.
  destruct (retry_run params context waiting ms retrying succeeded fallback meth w n)
    as (tail & -> & Ht & Hr & _).
  rewrite length_timeouts_app, length_requests_app, Ht. cbn. lia.
Qed.

(** The waits and requests of a run that continues after a block. *)
Ltac count_effects :=
  cbn [outcome events calls ret bind emit throw] in *;
  cbn [timeouts requests length app];
  rewrite ?length_timeouts_app, ?length_requests_app; cbn [timeouts requests length]; lia.

Lemma error_counts :
  forall (params : Params) (context : Context) (w : World),
    let r := run (Domain.error params context) w in
    (length (timeouts (events r)) <= 2)%nat
    /\ (length (requests (events r)) <= length (timeouts (events r)))%nat.
Proof.
  intros params context w r. subst r.
  unfold run, Domain.error, console_error. rewrite bind_emit. cbn [events].
  rewrite bind_run.
  destruct (Domain.isRateLimited (error params)).
  - match goal with |- context [Domain.retry ?p1 ?p2 ?p3 ?p4 ?p5 ?p6 ?p7 ?p8 ?p9 ?p10] =>
      pose proof (retry_bounds p1 p2 p3 p4 p5 p6 p7 p8 p9 p10) as [Ht Hr];
      cbv zeta in Ht, Hr;
      destruct (Domain.retry p1 p2 p3 p4 p5 p6 p7 p8 p9 p10) as [[[v |] | err] ev c1] end;
      cbn [outcome events calls] in *.
    + count_effects.
    + rewrite bind_run.
      destruct (Domain.isServiceError (error params)).
      * match goal with |- context [Domain.retry ?p1 ?p2 ?p3 ?p4 ?p5 ?p6 ?p7 ?p8 ?p9 ?p10] =>
          pose proof (retry_bounds p1 p2 p3 p4 p5 p6 p7 p8 p9 p10) as [Ht' Hr'];
          cbv zeta in Ht', Hr';
          destruct (Domain.retry p1 p2 p3 p4 p5 p6 p7 p8 p9 p10) as [[[v' |] | err'] ev' c2] end;
          count_effects.
      * count_effects.
    + count_effects.
  - cbn [ret outcome events calls app]. rewrite bind_run.
    destruct (Domain.isServiceError (error params)).
    + match goal with |- context [Domain.retry ?p1 ?p2 ?p3 ?p4 ?p5 ?p6 ?p7 ?p8 ?p9 ?p10] =>
        pose proof (retry_bounds p1 p2 p3 p4 p5 p6 p7 p8 p9 p10) as [Ht' Hr'];
        cbv zeta in Ht', Hr';
        destruct (Domain.retry p1 p2 p3 p4 p5 p6 p7 p8 p9 p10) as [[[v' |] | err'] ev' c2] end;
        count_effects.
    + count_effects.
Qed.

(** X4: whatever the failure, the context and the answers of the network, one
    recovery invocation waits at most twice and sends at most two requests,
    never more requests than waits; it waits and sends nothing at all unless
    one of its two tests passes. *)
Theorem error_bounds :
  forall (params : Params) (context : Context) (w : World),
    let r := run (Domain.error params context) w in
    (length (timeouts (events r)) <= 2)%nat
    /\ (length (requests (events r)) <= 2)%nat
    /\ (length (requests (events r)) <= length (timeouts (events r)))%nat
    /\ (Domain.isRateLimited (error params) || Domain.isServiceError (error params) = false ->
        timeouts (events r) = [] /\ requests (events r) = []).
Proof.
  intros params context w r.
  destruct (error_counts params context w) as [Ht Hr]. fold r in Ht, Hr.
  split; [exact Ht | split; [lia | split; [exact Hr |]]].
  intros Hn. apply orb_false_iff in Hn as [H1 H2].
  subst r. unfold run. now rewrite (error_fatal _ _ _ _ H1 H2).
Qed.

(** An instance of the bound: the test for unrecoverable errors. *)
Lemma error_bounds_witness :
  timeouts (events (run (Domain.error unauthorized empty_context) offline)) = []
  /\ requests (events (run (Domain.error unauthorized empty_context) offline)) = [].
Proof.
  exact (proj2 (proj2 (proj2 (error_bounds unauthorized empty_context offline))) eq_refl).
Defined.

(** A retry that is accepted: the block returns the result. *)
Lemma retry_succeeded :
  forall params context waiting ms retrying succeeded fallback meth w n
         sec token origin response responseData,
    secrets context = Some sec ->
    sec !! "BEARER_AUTH_TOKEN" = Some token ->
    base_origin w ("https://" +:+ ToString (sailpointDomain params)) = Return origin ->
    fetch_outcome w n (retry_request params origin token) = Resolved response ->
    ok response = true ->
    json response = Return responseData ->
    not_nullish responseData = true ->
    Domain.retry params context waiting ms retrying succeeded fallback meth w n
    = mkRun (Return (Some (JObj [("accountId", accountId params);
                                 ("enabled", JBool true);
                                 ("taskId", js_or (prop responseData "id")
                                                  (prop responseData "taskId"));
                                 ("message", js_or (prop responseData "message")
                                                   (JStr fallback));
                                 ("enabledAt", JStr (now w));
                                 ("recoveryMethod", JStr meth)])))
            (Domain.backoff waiting ms (accountId params) retrying
             ++ [EvFetch (retry_request params origin token);
                 EvConsole Log ("Successfully enabled account "
                                +:+ ToString (accountId params) +:+ succeeded) None])
            (S n).
Proof.
  intros params context waiting ms retrying succeeded fallback meth w n
    sec token origin response responseData Hsec Htoken Horigin Hfetch Hok Hjson Hbody.
  unfold Domain.retry, console_log, sleep.
  rewrite !bind_emit. cbn [outcome events calls]. rewrite bind_lift.
  unfold secret. rewrite Hsec, Htoken. cbn [of_option].
  rewrite bind_run, Domain_enableAccount_run, Horigin. cbv zeta.
  fold (retry_request params origin token). rewrite Hfetch.
  cbn [outcome events calls]. rewrite Hok, bind_lift, Hjson, bind_emit.
  rewrite bind_run, enabled_result_run. cbn [outcome events calls].
  unfold prop. destruct responseData; try discriminate Hbody; reflexivity.
Qed.

(** X5: when one of the two tests passes and the first retry is accepted with
    a JSON body, the recovery returns the result of the retry, tagged
    [rate_limit_retry] if the rate-limit test passed and [service_retry]
    otherwise, after exactly one wait and one request. *)
Theorem recovery_success :
  forall params context w sec token origin response responseData,
    Domain.isRateLimited (error params) || Domain.isServiceError (error params) = true ->
    secrets context = Some sec ->
    sec !! "BEARER_AUTH_TOKEN" = Some token ->
    base_origin w ("https://" +:+ ToString (sailpointDomain params)) = Return origin ->
    fetch_outcome w 0%nat (retry_request params origin token) = Resolved response ->
    ok response = true ->
    json response = Return responseData ->
    not_nullish responseData = true ->
    let rate := Domain.isRateLimited (error params) in
    run (Domain.error params context) w
    = mkRun (Return (JObj [("accountId", accountId params);
                           ("enabled", JBool true);
                           ("taskId", js_or (prop responseData "id")
                                            (prop responseData "taskId"));
                           ("message",
                            js_or (prop responseData "message")
                              (JStr (if rate
                                     then "Account enable operation initiated after retry"
                                     else "Account enable operation initiated after service recovery")));
                           ("enabledAt", JStr (now w));
                           ("recoveryMethod",
                            JStr (if rate then "rate_limit_retry" else "service_retry"))]))
            (failed_log params
             :: (if rate then rate_limit_backoff params context
                 else service_backoff params context)
             ++ [EvFetch (retry_request params origin token);
                 EvConsole Log ("Successfully enabled account "
                                +:+ ToString (accountId params)
                                +:+ (if rate then " after retry"
                                     else " after service recovery")) None])
            1.
Proof.
  intros params context w sec token origin response responseData
    Hor Hsec Htoken Horigin Hfetch Hok Hjson Hbody rate. subst rate.
  unfold run, Domain.error, console_error. rewrite bind_emit.
  destruct (Domain.isRateLimited (error params)) eqn:Hr.
  - rewrite bind_run.
    rewrite (retry_succeeded _ _ _ _ _ _ _ _ _ _ _ _ _ _ _
               Hsec Htoken Horigin Hfetch Hok Hjson Hbody).
    cbn [outcome events calls ret]. rewrite app_nil_r. reflexivity.
  - cbn [orb] in Hor. rewrite Hor.
    rewrite bind_run. cbn [ret outcome events calls]. rewrite bind_run.
    rewrite (retry_succeeded _ _ _ _ _ _ _ _ _ _ _ _ _ _ _
               Hsec Htoken Horigin Hfetch Hok Hjson Hbody).
    cbn [outcome events calls ret app]. rewrite app_nil_r. reflexivity.
Qed.

(** An instance of the theorem on a successful recovery: the repository's
    test for service errors, a 503 whose retry is accepted. *)
Lemma recovery_success_witness :
  outcome (run (Domain.error (failure (JNum 503) "Service unavailable")
                  (token_context "test-token"))
               (always (json_response true 202 (JObj [("taskId", JStr "task789")]))))
  = Return (JObj [("accountId", JStr "acc123");
                  ("enabled", JBool true);
                  ("taskId", JStr "task789");
                  ("message",
                   JStr "Account enable operation initiated after service recovery");
                  ("enabledAt", JStr "2024-01-01T00:00:00.000Z");
                  ("recoveryMethod", JStr "service_retry")]).
Proof.
  exact (f_equal outcome
           (recovery_success (failure (JNum 503) "Service unavailable")
              (token_context "test-token")
              (always (json_response true 202 (JObj [("taskId", JStr "task789")])))
              {[ "BEARER_AUTH_TOKEN" := "test-token" ]} "test-token"
              "https://example.api.identitynow.com"
              (json_response true 202 (JObj [("taskId", JStr "task789")]))
              (JObj [("taskId", JStr "task789")])
              eq_refl eq_refl eq_refl eq_refl eq_refl eq_refl eq_refl eq_refl)).
Defined.

(** ** [invoke] of the domain revision *)

(** The error path of [invoke] has console output only. *)
Lemma fail_response_quiet :
  forall {A} (response : Response) (w : World) (n : nat),
    requests (events (@fail_response A response w n)) = []
    /\ timeouts (events (@fail_response A response w n)) = []
    /\ calls (@fail_response A response w n) = n.
Proof.
  intros A response w n.
  unfold fail_response, try_catch, errorMessage_of_json, errorMessage_of_text, console_error.
  rewrite bind_run.
  destruct (json response) as [errorBody | e]; cbn.
  - destruct errorBody; cbn; try (destruct (text response); cbn; auto).
    all: destruct (truthy _); cbn; auto; destruct (truthy _); cbn; auto.
  - destruct (text response); cbn; auto.
Qed.

(** The handling of a successful response has console output only. *)
Lemma enabled_quiet :
  forall accountId log fallback extra (response : Response) (w : World) (n : nat),
    let r := (let! responseData := lift (json response) in
              console_log log ;;
              enabled_result accountId responseData fallback extra) w n in
    requests (events r) = [] /\ timeouts (events r) = [] /\ calls r = n.
Proof.
  intros accountId log fallback extra response w n r. subst r.
  rewrite bind_lift. destruct (json response) as [responseData | e]; [| cbn; auto].
  unfold console_log. rewrite bind_emit, enabled_result_run. cbn. auto.
Qed.

(** X6: [invoke] of the domain revision validates before it touches the
    network.  An account identifier that is not a non-empty string (and that
    the first console line can convert to text), then a domain that is not a
    non-empty string, then a missing or empty bearer token each end the run
    with their own error after the first console line; so a request is only
    ever sent for inputs that pass all three checks. *)
Theorem invoke_validates :
  forall (params : Params) (context : Context) (w : World),
    let r := run (Domain.invoke params context) w in
    (has_text (accountId params) = true ->
     nonempty_string (accountId params) = false ->
     r = mkRun (Throw (new_Error "Invalid or missing accountId parameter"))
               [starting_log (accountId params)] 0)
    /\ (nonempty_string (accountId params) = true ->
        nonempty_string (sailpointDomain params) = false ->
        r = mkRun (Throw (new_Error "Invalid or missing sailpointDomain parameter"))
                  [starting_log (accountId params)] 0)
    /\ (nonempty_string (accountId params) = true ->
        nonempty_string (sailpointDomain params) = true ->
        truthy (secret_opt context "BEARER_AUTH_TOKEN") = false ->
        r = mkRun (Throw (new_Error "Missing required secret: BEARER_AUTH_TOKEN"))
                  [starting_log (accountId params)] 0)
    /\ (requests (events r) <> [] ->
        nonempty_string (accountId params) = true
        /\ nonempty_string (sailpointDomain params) = true
        /\ truthy (secret_opt context "BEARER_AUTH_TOKEN") = true).
Proof.
  intros params context w r. subst r.
  unfold run, Domain.invoke, console_log, nonempty_string. rewrite bind_emit.
  destruct (truthy (accountId params)), (is_string (accountId params));
    cbn [negb orb andb];
    try (repeat split; intros; try discriminate; cbn in *; congruence).
  destruct (truthy (sailpointDomain params)), (is_string (sailpointDomain params));
    cbn [negb orb andb];
    try (repeat split; intros; try discriminate; cbn in *; congruence).
  destruct (truthy (secret_opt context "BEARER_AUTH_TOKEN"));
    cbn [negb orb andb];
    repeat split; intros; try discriminate; cbn in *; congruence.
Qed.

(** An instance of the validation theorem: parameters without an account
    identifier. *)
Lemma invoke_validates_witness :
  run (Domain.invoke halted_missing_id (token_context "test-token")) offline
  = mkRun (Throw (new_Error "Invalid or missing accountId parameter"))
          [EvConsole Log
             "Starting SailPoint IdentityNow account enable for account: undefined" None]
          0.
Proof.
  exact (proj1 (invoke_validates halted_missing_id (token_context "test-token") offline)
               eq_refl eq_refl).
Defined.

(** X7: [invoke] of the domain revision never waits and sends at most one
    request, whatever its inputs and whatever the network answers. *)
Theorem invoke_one_request :
  forall (params : Params) (context : Context) (w : World),
    let r := run (Domain.invoke params context) w in
    timeouts (events r) = []
    /\ (length (requests (events r)) <= 1)%nat
    /\ calls r = length (requests (events r)).
Proof.
  intros params context w r. subst r.
  unfold run, Domain.invoke, console_log. rewrite bind_emit.
  destruct (negb (truthy (accountId params)) || negb (is_string (accountId params)));
    [cbn; auto |].
  destruct (negb (truthy (sailpointDomain params))
            || negb (is_string (sailpointDomain params))); [cbn; auto |].
  unfold secret_opt, secret.
  destruct (secrets context) as [sec |]; [| cbn; auto].
  destruct (sec !! "BEARER_AUTH_TOKEN") as [token |]; cbn [of_option]; [| cbn; auto].
  destruct (negb (truthy (JStr token))); [cbn; auto |].
  rewrite bind_lift, bind_run, Domain_enableAccount_run.
  destruct (base_origin w _) as [origin | e]; [| cbn; auto]. cbv zeta.
  case_fetch; [| cbn; auto]. cbn [outcome events calls].
  destruct (ok r).
  - match goal with |- context [bind (lift (json r)) ?k] =>
      pose proof (enabled_quiet (accountId params)
                    ("Successfully initiated account enable for account "
                     +:+ ToString (accountId params))
                    "Account enable operation initiated" [] r w 1%nat) as (Hq & Ht & Hc)
    end.
    cbv zeta in Hq, Ht, Hc. cbn [timeouts requests length app].
    unfold console_log in Hq, Ht, Hc. rewrite Ht, Hq, Hc. cbn. auto.
  - destruct (@fail_response_quiet JsVal r w 1%nat) as (Hq & Ht & Hc).
    cbn [timeouts requests length app]. rewrite Hq, Ht, Hc. cbn. auto.
Qed.

(** An instance of the lemma on the outcome of the domain revision: the
    repository's test for a 404 with detail code and tracking id. *)
Lemma Domain_invoke_outcome_witness :
  outcome (run (Domain.invoke (failure JUndefined EmptyString) (token_context "test-token"))
               (always (json_response false 404
                          (JObj [("detailCode", JStr "NOT_FOUND");
                                 ("trackingId", JStr "track123")]))))
  = Throw (failure_error "Failed to enable account: NOT_FOUND - track123" 404).
Proof.
  exact (Domain_invoke_outcome (failure JUndefined EmptyString) (token_context "test-token")
           (always (json_response false 404
                      (JObj [("detailCode", JStr "NOT_FOUND");
                             ("trackingId", JStr "track123")])))
           "acc123" "example.api.identitynow.com"
           {[ "BEARER_AUTH_TOKEN" := "test-token" ]} "test-token"
           "https://example.api.identitynow.com"
           (json_response false 404
              (JObj [("detailCode", JStr "NOT_FOUND"); ("trackingId", JStr "track123")]))
           eq_refl ltac:(discriminate) eq_refl ltac:(discriminate)
           eq_refl eq_refl ltac:(discriminate) eq_refl eq_refl).
Defined.

(** ** The base address *)

Lemma endsWithSlash_app : forall a, endsWithSlash (a +:+ "/") = true.
Proof.
  induction a as [| c a IH]; [reflexivity |].
  cbn [String.append endsWithSlash]. rewrite IH.
  destruct (a +:+ "/") eqn:E; [| reflexivity].
  destruct a; discriminate E.
Qed.

Lemma dropLast_app : forall a, dropLast (a +:+ "/") = a.
Proof.
  induction a as [| c a IH]; [reflexivity |].
  cbn [String.append dropLast]. rewrite IH.
  destruct (a +:+ "/") eqn:E; [| reflexivity].
  destruct a; discriminate E.
Qed.

Lemma dropLast_endsWithSlash :
  forall a, endsWithSlash a = true -> dropLast a +:+ "/" = a.
Proof.
  induction a as [| c a IH]; [discriminate |].
  destruct a as [| d a].
  - cbn. rewrite Ascii.eqb_eq. now intros ->.
  - intros H. change (String c (dropLast (String d a) +:+ "/") = String c (String d a)).
    now rewrite IH.
Qed.

Lemma append_nonempty : forall a b, b <> EmptyString -> a +:+ b <> EmptyString.
Proof. intros [| c a] b Hb; [exact Hb | discriminate]. Qed.

(** X9: one trailing slash of the base address does not matter.  An address
    and the same address followed by a slash resolve to the same base (when
    the address does not itself end with a slash), and whatever [getBaseURL]
    returns is the address it chose, or that address without its last
    slash. *)
Theorem trailing_slash_ignored :
  forall (params params' : Params) (context : Context) (a : string),
    address params = JStr a ->
    address params' = JStr (a +:+ "/") ->
    getBaseURL params' context = Return a
    /\ (a <> EmptyString -> endsWithSlash a = false -> getBaseURL params context = Return a)
    /\ (forall base,
          getBaseURL params context = Return base ->
          a <> EmptyString -> a = base \/ a = base +:+ "/").
Proof.
  intros params params' context a Ha Ha'. split; [| split].
  - unfold getBaseURL, js_or. rewrite Ha'.
    assert (Ht : truthy (JStr (a +:+ "/")) = true)
      by (apply truthy_JStr, append_nonempty; discriminate).
    rewrite Ht. cbn [negb]. rewrite Ht. now rewrite endsWithSlash_app, dropLast_app.
  - intros Hne Hs. unfold getBaseURL, js_or.
    rewrite Ha, (truthy_JStr a Hne). cbn [negb]. rewrite (truthy_JStr a Hne).
    cbn [negb]. now rewrite Hs.
  - intros base H Hne. unfold getBaseURL, js_or in H.
    rewrite Ha, (truthy_JStr a Hne) in H. cbn [negb] in H.
    rewrite (truthy_JStr a Hne) in H. cbn [negb] in H.
    destruct (endsWithSlash a) eqn:Hs; injection H as <-.
    + right. symmetry. now apply dropLast_endsWithSlash.
    + now left.
Qed.

(** An instance of the theorem on the trailing slash. *)
Lemma trailing_slash_ignored_witness :
  getBaseURL utils_params empty_context = Return "https://example.api.identitynow.com".
Proof.
  exact (proj1 (proj2 (trailing_slash_ignored utils_params
                         {| accountId := JStr "acc123";
                            address := JStr "https://example.api.identitynow.com/";
                            sailpointDomain := JUndefined;
                            externalVerificationId := JUndefined;
                            forceProvisioning := JUndefined;
                            reason := JUndefined; error := new_Error EmptyString |}
                         empty_context "https://example.api.identitynow.com"
                         eq_refl eq_refl))
               ltac:(discriminate) eq_refl).
Defined.

(** X10: without a base address [invoke] of the utils revision fails before
    it asks for credentials: when the resolved parameters carry no address
    and the environment has no [ADDRESS], it throws the missing-address
    error, whatever the credential helper would do, and its only effects are
    console lines (the template warning, if any, and the first line). *)
Theorem invoke_without_address :
  forall resolve getAuth params context w resolvedParams errors,
    resolve params (js_or (data context) (JObj [])) = (resolvedParams, errors) ->
    truthy (address resolvedParams) = false ->
    truthy (env_var context "ADDRESS") = false ->
    run (Utils.invoke resolve getAuth params context) w
    = mkRun (Throw (new_Error
                      "No URL specified. Provide address parameter or ADDRESS environment variable"))
            ((if (0 <? length errors)%nat
              then [EvConsole Warn "Template resolution errors:" (Some (JArr errors))]
              else [])
             ++ [starting_log (accountId resolvedParams)])
            0.
Proof.
  intros resolve getAuth params context w rp errors Hresolve Haddr Henv.
  unfold run, Utils.invoke. rewrite Hresolve, bind_run.
  unfold Utils.invoke_resolved, console_log. 
  assert (Hbase : getBaseURL rp context
                  = Throw (new_Error
                      "No URL specified. Provide address parameter or ADDRESS environment variable")).
  { unfold getBaseURL, js_or. rewrite Haddr, Henv. reflexivity. }
  destruct (0 <? length errors)%nat; cbn [outcome events calls console_warn emit ret];
    rewrite bind_emit, bind_lift, Hbase; reflexivity.
Qed.

(** An instance of the theorem on the missing address. *)
Lemma invoke_without_address_witness :
  run (Utils.invoke no_templates bearer_only_header halted_empty_id
         (token_context "test-token")) offline
  = mkRun (Throw (new_Error
                    "No URL specified. Provide address parameter or ADDRESS environment variable"))
          [starting_log (JStr EmptyString)] 0.
Proof.
  exact (invoke_without_address no_templates bearer_only_header halted_empty_id
           (token_context "test-token") offline halted_empty_id []
           eq_refl eq_refl eq_refl).
Defined.

(** ** The configured waits *)

Lemma pretty_N_char_digit :
  forall d, (d < 10)%N ->
    is_digit (pretty_N_char d) = true
    /\ digit_value (pretty_N_char d) = Z.of_N d
    /\ is_space (pretty_N_char d) = false
    /\ pretty_N_char d <> "-"%char /\ pretty_N_char d <> "+"%char.
Proof.
  intros d Hd.
  assert (d = 0 \/ d = 1 \/ d = 2 \/ d = 3 \/ d = 4 \/ d = 5 \/ d = 6 \/ d = 7
          \/ d = 8 \/ d = 9)%N as H by lia.
  repeat destruct H as [-> | H]; try subst d; repeat split; discriminate.
Qed.

Lemma append_assoc : forall a b c : string, (a +:+ b) +:+ c = a +:+ (b +:+ c).
Proof. induction a as [| x a IH]; intros b c; cbn; [| rewrite IH]; reflexivity. Qed.

Lemma pretty_N_go_app : forall x s, pretty_N_go x s = pretty_N_go x EmptyString +:+ s.
Proof.
  intros x. induction (N.lt_wf_0 x) as [x _ IH]. intros s.
  assert (x = 0 \/ 0 < x)%N as [-> | Hx] by lia.
  - now rewrite !pretty_N_go_0.
  - rewrite (pretty_N_go_step x s), (pretty_N_go_step x EmptyString) by assumption.
    assert (Hlt : (x `div` 10 < x)%N) by (apply N.div_lt; lia).
    rewrite (IH _ Hlt (String (pretty_N_char (x `mod` 10)) s)).
    rewrite (IH _ Hlt (String (pretty_N_char (x `mod` 10)) EmptyString)).
    now rewrite append_assoc.
Qed.

(** The digits written for [x] are read back as [x], after whatever was
    read before them. *)
Lemma read_digits_pretty :
  forall x s, (0 < x)%N ->
    read_digits (pretty_N_go x s) None = read_digits s (Some (Z.of_N x))
    /\ exists c rest, pretty_N_go x s = String c rest /\ is_digit c = true.
Proof.
  intros x. induction (N.lt_wf_0 x) as [x _ IH]. intros s Hx.
  rewrite pretty_N_go_step by assumption.
  destruct (pretty_N_char_digit (x `mod` 10)%N) as (Hd & Hv & _);
    [apply N.mod_lt; lia |].
  destruct (N.eq_0_gt_0_cases (x `div` 10)%N) as [H0 | Hpos].
  - rewrite H0, pretty_N_go_0. split.
    + cbn [read_digits]. rewrite Hd, Hv. do 2 f_equal.
      pose proof (N.div_mod x 10 ltac:(lia)). lia.
    + eauto.
  - destruct (IH (x `div` 10)%N ltac:(apply N.div_lt; lia)
                (String (pretty_N_char (x `mod` 10)) s) Hpos) as [Hr Hh].
    split; [| exact Hh].
    rewrite Hr. cbn [read_digits]. rewrite Hd, Hv. do 2 f_equal.
    pose proof (N.div_mod x 10 ltac:(lia)). lia.
Qed.

Lemma read_digits_stop :
  forall rest acc, no_leading_digit rest = true -> read_digits rest acc = acc.
Proof.
  intros [| c rest] acc H; [reflexivity |].
  cbn in H |- *. now destruct (is_digit c).
Qed.

Lemma parseInt_digit :
  forall c rest, is_digit c = true ->
    parseInt (String c rest)
    = match read_digits (String c rest) None with Some n => Num n | None => NaN end.
Proof.
  intros [[] [] [] [] [] [] [] []] rest H; try discriminate H; reflexivity.
Qed.

Lemma parseInt_positive :
  forall p rest, no_leading_digit rest = true ->
    parseInt (pretty_N_go (N.pos p) EmptyString +:+ rest) = Num (Z.pos p)
    /\ read_digits (pretty_N_go (N.pos p) EmptyString +:+ rest) None = Some (Z.pos p).
Proof.
  intros p rest Hrest. rewrite <- pretty_N_go_app.
  destruct (read_digits_pretty (N.pos p) rest ltac:(lia)) as [Hr (c & t & Hs & Hc)].
  rewrite (read_digits_stop rest _ Hrest) in Hr.
  split; [| exact Hr].
  rewrite Hs in Hr |- *. rewrite parseInt_digit by assumption. now rewrite Hr.
Qed.

(** [parseInt] reads back the decimal text of every integer, whatever
    follows it, as long as that is not a further digit. *)
Lemma parseInt_pretty :
  forall (z : Z) rest, no_leading_digit rest = true ->
    parseInt (pretty z +:+ rest) = Num z.
Proof.
  intros [| p | p] rest Hrest.
  - change (pretty 0%Z) with "0". cbn [String.append].
    rewrite parseInt_digit by reflexivity. cbn [read_digits].
    change (is_digit "0") with true. cbn iota.
    now rewrite (read_digits_stop rest _ Hrest).
  - change (pretty (Z.pos p)) with (pretty_N_go (N.pos p) EmptyString).
    now apply parseInt_positive.
  - change (pretty (Z.neg p)) with ("-" +:+ pretty_N_go (N.pos p) EmptyString).
    cbn [String.append]. unfold parseInt. cbn [skip_spaces].
    change (is_space "-") with false. cbn iota.
    destruct (parseInt_positive p rest Hrest) as [_ ->]. reflexivity.
Qed.

Lemma pretty_nonempty : forall (z : Z) rest, pretty z +:+ rest <> EmptyString.
Proof.
  intros [| p | p] rest.
  - discriminate.
  - change (pretty (Z.pos p)) with (pretty_N_go (N.pos p) EmptyString).
    rewrite <- pretty_N_go_app.
    destruct (read_digits_pretty (N.pos p) rest ltac:(lia)) as [_ (c & t & -> & _)].
    discriminate.
  - discriminate.
Qed.

Lemma backoff_default :
  forall v fallback,
    v = JUndefined \/ v = JStr EmptyString ->
    ToString (js_or v (JStr fallback)) = fallback.
Proof. intros v fallback [-> | ->]; reflexivity. Qed.

Lemma backoff_configured :
  forall z rest fallback, no_leading_digit rest = true ->
    parseInt (ToString (js_or (JStr (pretty z +:+ rest)) (JStr fallback))) = Num z.
Proof.
  intros z rest fallback Hrest. unfold js_or.
  rewrite truthy_JStr by apply pretty_nonempty.
  cbn [ToString]. now apply parseInt_pretty.
Qed.

(** The timer of a recovery is first handed the back-off of the block that
    is entered first. *)
Lemma error_first_timeout :
  forall (params : Params) (context : Context) (w : World),
    let r := run (Domain.error params context) w in
    (Domain.isRateLimited (error params) = true ->
     exists more, timeouts (events r) = Domain.rateLimitBackoffMs context :: more)
    /\ (Domain.isRateLimited (error params) = false ->
        Domain.isServiceError (error params) = true ->
        timeouts (events r) = [Domain.serviceErrorBackoffMs context]).
Proof.
  intros params context w r. subst r.
  unfold run, Domain.error, console_error. rewrite bind_emit. cbn [events].
  split.
  - intros Hr. rewrite Hr, bind_run.
    match goal with |- context [Domain.retry ?p1 ?p2 ?p3 ?p4 ?p5 ?p6 ?p7 ?p8 ?p9 ?p10] =>
      destruct (retry_run p1 p2 p3 p4 p5 p6 p7 p8 p9 p10) as (tail & Hev & Ht & _ & _);
      destruct (outcome (Domain.retry p1 p2 p3 p4 p5 p6 p7 p8 p9 p10))
    end; cbn [events timeouts]; rewrite Hev; unfold Domain.backoff;
      cbn [app timeouts]; eexists; reflexivity.
  - intros Hr Hs. rewrite Hr, Hs, bind_run. cbn [ret outcome events calls app].
    rewrite bind_run.
    match goal with |- context [Domain.retry ?p1 ?p2 ?p3 ?p4 ?p5 ?p6 ?p7 ?p8 ?p9 ?p10] =>
      destruct (retry_run p1 p2 p3 p4 p5 p6 p7 p8 p9 p10) as (tail & Hev & Ht & _ & _);
      destruct (outcome (Domain.retry p1 p2 p3 p4 p5 p6 p7 p8 p9 p10)) as [[result |] | err]
    end; cbn [events timeouts ret bind emit throw outcome calls]; rewrite Hev;
      unfold Domain.backoff; cbn [app timeouts];
      rewrite ?timeouts_app, ?Ht; cbn [timeouts app]; rewrite ?Ht; reflexivity.
Qed.

(** X11: the delays of the recovery entry point are configured by decimal
    text.  Given an account identifier that the first console line can
    convert to text: for a failure that passes the rate-limit test the first delay
    handed to the timer is the value of [RATE_LIMIT_BACKOFF_MS]; for one that
    passes the service-error test only, the single delay is the value of
    [SERVICE_ERROR_BACKOFF_MS].  The value counts as the integer [z] when it
    is the decimal text of [z], possibly followed by something that is not a
    digit (a unit, say), for every [z] from 1 to 2^31 - 1, the delays a timer
    honours as they are; a variable that is absent or empty, or a context
    without environment, gives the default: 30000 for the rate limit, 10000
    for a service error. *)
Theorem backoff_configuration :
  forall (params : Params) (context : Context) (w : World),
    let r := run (Domain.error params context) w in
    let rate := Domain.isRateLimited (error params) in
    let service := Domain.isServiceError (error params) in
    has_text (accountId params) = true ->
    (forall z rest,
        timer_delay z = true ->
        no_leading_digit rest = true ->
        env_var context "RATE_LIMIT_BACKOFF_MS" = JStr (pretty z +:+ rest) ->
        rate = true ->
        exists more, timeouts (events r) = Num z :: more)
    /\ (forall z rest,
        timer_delay z = true ->
        no_leading_digit rest = true ->
        env_var context "SERVICE_ERROR_BACKOFF_MS" = JStr (pretty z +:+ rest) ->
        rate = false -> service = true ->
        timeouts (events r) = [Num z])
    /\ (env_var context "RATE_LIMIT_BACKOFF_MS" = JUndefined
        \/ env_var context "RATE_LIMIT_BACKOFF_MS" = JStr EmptyString ->
        rate = true ->
        exists more, timeouts (events r) = Num 30000 :: more)
    /\ (env_var context "SERVICE_ERROR_BACKOFF_MS" = JUndefined
        \/ env_var context "SERVICE_ERROR_BACKOFF_MS" = JStr EmptyString ->
        rate = false -> service = true ->
        timeouts (events r) = [Num 10000]).
Proof.
  intros params context w r rate service _. subst r rate service.
  destruct (error_first_timeout params context w) as [Hrate Hservice].
  cbv zeta in Hrate, Hservice.
  unfold Domain.rateLimitBackoffMs, Domain.serviceErrorBackoffMs in Hrate, Hservice.
  repeat split.
  - intros z rest _ Hrest Henv Hr. rewrite Henv, backoff_configured in Hrate by assumption.
    now apply Hrate.
  - intros z rest _ Hrest Henv Hr Hs.
    rewrite Henv, backoff_configured in Hservice by assumption. now apply Hservice.
  - intros Henv Hr. rewrite (backoff_default _ "30000" Henv) in Hrate. now apply Hrate.
  - intros Henv Hr Hs. rewrite (backoff_default _ "10000" Henv) in Hservice.
    now apply Hservice.
Qed.

(** An instance of the theorem on the configured delays: a rate-limit value
    with a unit, and the default of the service error. *)
Lemma backoff_configuration_witness :
  (exists more,
     timeouts (events (run (Domain.error (failure (JNum 429) "HTTP 429") waiting_context)
                           (always accepted)))
     = Num 5000 :: more)
  /\ timeouts (events (run (Domain.error (failure (JNum 503) "HTTP 503") waiting_context)
                          (always accepted)))
     = [Num 10000].
Proof.
  split.
  - exact (proj1 (backoff_configuration (failure (JNum 429) "HTTP 429") waiting_context
                    (always accepted) eq_refl)
             5000 "ms" eq_refl eq_refl eq_refl eq_refl).
  - exact (proj2 (proj2 (proj2 (backoff_configuration (failure (JNum 503) "HTTP 503")
                                  waiting_context (always accepted) eq_refl)))
             (or_introl eq_refl) eq_refl eq_refl).
Defined.

(** ** The credential helper of the bundle *)

Lemma token_request_failed_run :
  forall statusText {A} (response : Response) (w : World) (n : nat),
    @token_request_failed statusText A response w n
    = mkRun (match token_error_text response with
             | Return errorText =>
                 Throw (new_Error ("OAuth2 token request failed: "
                                   +:+ pretty (status response) +:+ " "
                                   +:+ statusText response +:+ " - " +:+ errorText))
             | Throw e => Throw e
             end) [] n.
Proof.
  intros. unfold token_request_failed, token_error_text, try_catch.
  rewrite bind_run, bind_lift.
  destruct (json response) as [errorData | e]; cbn.
  - reflexivity.
  - destruct (text response); reflexivity.
Qed.

Lemma bind_fetch :
  forall {B} (req : Request) (k : Response -> M B) (w : World) (n : nat),
    bind (fetch req) k w n
    = match fetch_outcome w n req with
      | Resolved r =>
          mkRun (outcome (k r w (S n))) (EvFetch req :: events (k r w (S n)))
                (calls (k r w (S n)))
      | Rejected e => mkRun (Throw e) [EvFetch req] (S n)
      end.
Proof. intros. unfold bind, fetch. case_fetch; reflexivity. Qed.

(** The run of [getClientCredentialsToken] for a complete configuration. *)
Lemma getClientCredentialsToken_run :
  forall statusText (config : OAuth2Config) (w : World) (n : nat),
    truthy (tokenUrl config) = true ->
    truthy (clientId config) = true ->
    truthy (clientSecret config) = true ->
    getClientCredentialsToken statusText config w n
    = match token_authorization config with
      | Throw e => mkRun (Throw e) [] n
      | Return authorization =>
          let req := token_request config authorization in
          match fetch_outcome w n req with
          | Rejected e => mkRun (Throw e) [EvFetch req] (S n)
          | Resolved response =>
              mkRun (if ok response then access_token_of response
                     else match token_error_text response with
                          | Return errorText =>
                              Throw (new_Error
                                       ("OAuth2 token request failed: "
                                        +:+ pretty (status response) +:+ " "
                                        +:+ statusText response +:+ " - " +:+ errorText))
                          | Throw e => Throw e
                          end)
                    [EvFetch req] (S n)
          end
      end.
Proof.
  intros statusText config w n Hu Hi Hs.
  assert (Hrest : forall headers,
             (let! response :=
                fetch {| url := ToString (tokenUrl config); method := "POST";
                         headers := headers;
                         body := URLSearchParams_toString (token_params config) |} in
              if negb (ok response) then token_request_failed statusText response
              else
                let! data := lift (json response) in
                let! access_token := lift (get_prop data "access_token") in
                if negb (truthy access_token) then
                  throw (new_Error "No access_token in OAuth2 response")
                else ret access_token) w n
             = let req := {| url := ToString (tokenUrl config); method := "POST";
                             headers := headers;
                             body := URLSearchParams_toString (token_params config) |} in
               match fetch_outcome w n req with
               | Rejected e => mkRun (Throw e) [EvFetch req] (S n)
               | Resolved response =>
                   mkRun (if ok response then access_token_of response
                          else match token_error_text response with
                               | Return errorText =>
                                   Throw (new_Error
                                            ("OAuth2 token request failed: "
                                             +:+ pretty (status response) +:+ " "
                                             +:+ statusText response +:+ " - " +:+ errorText))
                               | Throw e => Throw e
                               end)
                         [EvFetch req] (S n)
               end).
  { intros headers. rewrite bind_fetch. cbv zeta.
    case_fetch; [| reflexivity].
    destruct (ok r); cbn [negb].
    - rewrite bind_lift. unfold access_token_of.
      destruct (json r) as [data | e]; [| reflexivity].
      rewrite bind_lift. destruct (get_prop data "access_token") as [t | e]; [| reflexivity].
      destruct (truthy t); reflexivity.
    - rewrite token_request_failed_run. reflexivity. }
  unfold getClientCredentialsToken, token_authorization, token_request.
  rewrite Hu, Hi, Hs. cbn [negb orb]. cbv zeta.
  destruct (is_InParams (authStyle config)).
  - rewrite bind_ret_l, Hrest. cbv zeta. rewrite app_nil_r. reflexivity.
  - rewrite bind_assoc, bind_lift.
    destruct (btoa _) as [credentials | e]; [| reflexivity].
    rewrite bind_ret_l, Hrest. reflexivity.
Qed.

(** [invoke] of the bundle around its credential helper: the first line, the
    helper's effects, the request, and console output only after it. *)
Lemma invoke_resolved_effects :
  forall getAuth (rp : Params) (context : Context) (w : World) (n : nat) base,
    getBaseURL rp context = Return base ->
    let h := getAuth context w n in
    let r := Utils.invoke_resolved getAuth rp context w n in
    match outcome h with
    | Throw e => r = mkRun (Throw e) (starting_log (accountId rp) :: events h) (calls h)
    | Return a =>
        exists tail,
          events r = starting_log (accountId rp) :: events h
                     ++ EvFetch (Utils_request rp base a) :: tail
          /\ requests tail = [] /\ timeouts tail = [] /\ calls r = S (calls h)
    end.
Proof.
  intros getAuth rp context w n base Hbase h r. subst h r.
  unfold Utils.invoke_resolved, console_log.
  rewrite bind_emit, bind_lift, Hbase, bind_run. fold (starting_log (accountId rp)).
  destruct (getAuth context w n) as [[a | e] ev c]; cbn [outcome events calls];
    [| reflexivity].
  rewrite bind_run, Utils_enableAccount_run. cbv zeta.
  fold (Utils_request rp base a).
  case_fetch; cbn [outcome events calls].
  - destruct (ok r).
    + match goal with |- context [bind (lift (json r)) ?k] =>
        pose proof (enabled_quiet (accountId rp)
                      ("Successfully initiated account enable for account "
                       +:+ ToString (accountId rp))
                      "Account enable operation initiated" [("address", JStr base)]
                      r w (S c)) as (Hq & Ht & Hc)
      end.
      cbv zeta in Hq, Ht, Hc. unfold console_log in Hq, Ht, Hc.
      eexists. split; [reflexivity |]. auto.
    + destruct (@fail_response_quiet JsVal r w (S c)) as (Hq & Ht & Hc).
      eexists. split; [reflexivity |]. auto.
  - exists []. auto.
Qed.

(** The run of the credential helper. *)
Lemma getAuthorizationHeader_static :
  forall statusText context w n,
    static_credentials context = true ->
    exists o, getAuthorizationHeader statusText context w n = mkRun o [] n.
Proof.
  intros statusText context w n Hs. unfold static_credentials in Hs.
  unfold getAuthorizationHeader.
  destruct (truthy (secret_opt context "BEARER_AUTH_TOKEN")); [eexists; reflexivity |].
  destruct (truthy (secret_opt context "BASIC_PASSWORD")
            && truthy (secret_opt context "BASIC_USERNAME")).
  - rewrite bind_lift. destruct (btoa _); eexists; reflexivity.
  - cbn in Hs. rewrite Hs. eexists; reflexivity.
Qed.

Lemma getAuthorizationHeader_client :
  forall statusText context w n,
    static_credentials context = false ->
    getAuthorizationHeader statusText context w n
    = if truthy (secret_opt context "OAUTH2_CLIENT_CREDENTIALS_CLIENT_SECRET") then
        if negb (truthy (env_var context "OAUTH2_CLIENT_CREDENTIALS_TOKEN_URL"))
           || negb (truthy (env_var context "OAUTH2_CLIENT_CREDENTIALS_CLIENT_ID"))
        then mkRun (Throw (new_Error
                      "OAuth2 Client Credentials flow requires TOKEN_URL and CLIENT_ID in env"))
                   [] n
        else
          let t := getClientCredentialsToken statusText (client_credentials_config context)
                     w n in
          mkRun (match outcome t with
                 | Return token => Return ("Bearer " +:+ ToString token)
                 | Throw e => Throw e
                 end) (events t) (calls t)
      else mkRun (Throw no_authentication) [] n.
Proof.
  intros statusText context w n Hs. unfold static_credentials in Hs.
  apply orb_false_elim in Hs as [Hs Hcode]. apply orb_false_elim in Hs as [Hbearer Hbasic].
  unfold getAuthorizationHeader. rewrite Hbearer, Hbasic, Hcode.
  destruct (truthy (secret_opt context "OAUTH2_CLIENT_CREDENTIALS_CLIENT_SECRET"));
    [| reflexivity].
  destruct (negb _ || negb _); [reflexivity |].
  rewrite bind_run. fold (client_credentials_config context). cbv zeta.
  destruct (getClientCredentialsToken _ _ w n) as [[token | e] ev c]; cbn;
    [now rewrite app_nil_r | reflexivity].
Qed.

(** The effects of the credential helper: none, or one request. *)
Lemma credentials_shape :
  forall statusText (context : Context) (w : World) (n : nat),
    let r := getAuthorizationHeader statusText context w n in
    (events r = [] /\ calls r = n)
    \/ (static_credentials context = false
        /\ exists req, events r = [EvFetch req] /\ calls r = S n).
Proof.
  intros statusText context w n r. subst r.
  destruct (static_credentials context) eqn:Hs.
  - destruct (getAuthorizationHeader_static statusText context w n Hs) as [o ->].
    left. auto.
  - rewrite getAuthorizationHeader_client by assumption.
    destruct (truthy (secret_opt context "OAUTH2_CLIENT_CREDENTIALS_CLIENT_SECRET")) eqn:Hsec;
      [| left; auto].
    destruct (truthy (env_var context "OAUTH2_CLIENT_CREDENTIALS_TOKEN_URL")) eqn:Hu;
      [| left; auto].
    destruct (truthy (env_var context "OAUTH2_CLIENT_CREDENTIALS_CLIENT_ID")) eqn:Hi;
      [| left; auto].
    cbn [negb orb]. cbv zeta.
    rewrite getClientCredentialsToken_run by assumption.
    destruct (token_authorization _) as [authorization | e]; [| left; auto].
    right. split; [reflexivity |]. eexists.
    cbv zeta. case_fetch; auto.
Qed.

(** X12: the credential helper of the bundle is silent and frugal.  It never
    writes to the console and never waits; with a bearer token, a user name
    and password, or an authorization-code token in the secrets it performs
    no effect at all; otherwise its only possible effect is one request, the
    token request to the configured token address. *)
Theorem credentials_effects :
  forall statusText (context : Context) (w : World) (n : nat),
    let r := getAuthorizationHeader statusText context w n in
    (events r = [] /\ calls r = n)
    \/ (static_credentials context = false
        /\ exists authorization,
             token_authorization (client_credentials_config context) = Return authorization
             /\ events r = [EvFetch (token_request (client_credentials_config context)
                                       authorization)]
             /\ calls r = S n).
Proof.
  intros statusText context w n r. subst r.
  destruct (static_credentials context) eqn:Hs.
  - destruct (getAuthorizationHeader_static statusText context w n Hs) as [o ->].
    left. auto.
  - rewrite getAuthorizationHeader_client by assumption.
    destruct (truthy (secret_opt context "OAUTH2_CLIENT_CREDENTIALS_CLIENT_SECRET")) eqn:Hsec;
      [| left; auto].
    destruct (truthy (env_var context "OAUTH2_CLIENT_CREDENTIALS_TOKEN_URL")) eqn:Hu;
      [| left; auto].
    destruct (truthy (env_var context "OAUTH2_CLIENT_CREDENTIALS_CLIENT_ID")) eqn:Hi;
      [| left; auto].
    cbn [negb orb]. cbv zeta.
    rewrite getClientCredentialsToken_run by assumption.
    destruct (token_authorization _) as [authorization | e]; [| left; auto].
    right. split; [reflexivity |]. exists authorization. split; [reflexivity |].
    cbv zeta. case_fetch; auto.
Qed.

(** X13: whatever method supplies it, a header returned by the credential
    helper starts with [Bearer ] or with [Basic ]. *)
Theorem authorization_scheme :
  forall statusText (context : Context) (w : World) (n : nat) (h : string),
    outcome (getAuthorizationHeader statusText context w n) = Return h ->
    startsWith h "Bearer " = true \/ startsWith h "Basic " = true.
Proof.
  intros statusText context w n h.
  destruct (static_credentials context) eqn:Hs.
  - unfold static_credentials in Hs. unfold getAuthorizationHeader.
    destruct (truthy (secret_opt context "BEARER_AUTH_TOKEN")).
    { intros [= <-]. left. apply bearer_prefixed. }
    destruct (truthy (secret_opt context "BASIC_PASSWORD")
              && truthy (secret_opt context "BASIC_USERNAME")).
    { rewrite bind_lift. destruct (btoa _); [| discriminate].
      intros [= <-]. right. reflexivity. }
    cbn in Hs. rewrite Hs. intros [= <-]. left. apply bearer_prefixed.
  - rewrite getAuthorizationHeader_client by assumption.
    destruct (truthy _); [| discriminate].
    destruct (negb _ || negb _); [discriminate |].
    cbv zeta. cbn [outcome].
    destruct (outcome _); [| discriminate].
    intros [= <-]. left. reflexivity.
Qed.

(** An instance of the theorem on the scheme: a user name and a password. *)
Lemma authorization_scheme_witness :
  startsWith "Basic dXNlcjpwYXNz" "Bearer " = true
  \/ startsWith "Basic dXNlcjpwYXNz" "Basic " = true.
Proof.
  exact (authorization_scheme reason_phrase (basic_context "user" "pass") offline 0%nat
           "Basic dXNlcjpwYXNz" eq_refl).
Defined.



(** X15: the client-credentials exchange.  With no other credential in the
    secrets, a client secret, a token address and a client identifier, and
    when identifier and secret go in the parameters or can be encoded for the
    [Basic] header, the helper's only effect is the token request; once it is
    answered
    - a successful answer whose [access_token] is a non-empty string gives
      the header [Bearer <token>], the token taken as it is, even when it
      starts with [Bearer ] itself;
    - a successful answer whose body is an object without a truthy
      [access_token] throws the error that says so;
    - an unsuccessful answer whose body parses throws an error that names
      the status, the reason phrase and the JSON text of the body;
    - an unsuccessful answer whose body does not parse throws what [text()]
      throws once [json()] has read the body; only a response that still
      yields its text gives the error with the status, the reason phrase
      and that text. *)
Theorem token_exchange :
  forall statusText (context : Context) (w : World) (n : nat) authorization response,
    let config := client_credentials_config context in
    let r := getAuthorizationHeader statusText context w n in
    let failed := fun errorText =>
      new_Error ("OAuth2 token request failed: " +:+ pretty (status response)
                 +:+ " " +:+ statusText response +:+ " - " +:+ errorText) in
    static_credentials context = false ->
    truthy (clientSecret config) = true ->
    truthy (tokenUrl config) = true ->
    truthy (clientId config) = true ->
    token_authorization config = Return authorization ->
    fetch_outcome w n (token_request config authorization) = Resolved response ->
    events r = [EvFetch (token_request config authorization)]
    /\ (forall data token,
          ok response = true -> json response = Return data ->
          prop data "access_token" = JStr token -> token <> EmptyString ->
          outcome r = Return ("Bearer " +:+ token))
    /\ (forall data,
          ok response = true -> json response = Return data ->
          not_nullish data = true -> truthy (prop data "access_token") = false ->
          outcome r = Throw (new_Error "No access_token in OAuth2 response"))
    /\ (forall errorData,
          ok response = false -> json response = Return errorData ->
          safe_numbers errorData = true ->
          outcome r = Throw (failed (stringified errorData)))
    /\ (forall e unreadable,
          ok response = false -> json response = Throw e ->
          text response = Throw unreadable ->
          outcome r = Throw unreadable)
    /\ (forall e raw,
          ok response = false -> json response = Throw e ->
          text response = Return raw ->
          outcome r = Throw (failed raw)).
Proof.
  intros statusText context w n authorization response config r failed
    Hs Hsec Hu Hi Hauth Hfetch. subst r config failed.
  rewrite getAuthorizationHeader_client by assumption.
  assert (Hsec' : truthy (secret_opt context "OAUTH2_CLIENT_CREDENTIALS_CLIENT_SECRET") = true)
    by exact Hsec.
  assert (Hu' : truthy (env_var context "OAUTH2_CLIENT_CREDENTIALS_TOKEN_URL") = true)
    by exact Hu.
  assert (Hi' : truthy (env_var context "OAUTH2_CLIENT_CREDENTIALS_CLIENT_ID") = true)
    by exact Hi.
  rewrite Hsec', Hu', Hi'. cbn [negb orb]. cbv zeta.
  rewrite (getClientCredentialsToken_run statusText _ w n Hu Hi Hsec).
  rewrite Hauth. cbv zeta. rewrite Hfetch. cbn [outcome events calls].
  split; [reflexivity |]. split; [| split; [| split; [| split]]].
  - intros data token Hok Hjson Hprop Hne. rewrite Hok. unfold access_token_of.
    rewrite Hjson. unfold prop in Hprop.
    destruct (get_prop data "access_token") as [t | e]; [| discriminate Hprop].
    subst t. now rewrite truthy_JStr by assumption.
  - intros data Hok Hjson Hdata Hfalsy. rewrite Hok. unfold access_token_of.
    rewrite Hjson. unfold prop in Hfalsy.
    destruct data; try discriminate Hdata; cbn [get_prop] in *; now rewrite Hfalsy.
  - intros errorData Hok Hjson _. unfold token_error_text. now rewrite Hok, Hjson.
  - intros e unreadable Hok Hjson Htext. unfold token_error_text.
    now rewrite Hok, Hjson, Htext.
  - intros e raw Hok Hjson Htext. unfold token_error_text.
    now rewrite Hok, Hjson, Htext.
Qed.

(** An instance of the theorem on the exchange: a token that is granted, and
    a refusal whose body is not JSON, as [fetch] delivers it. *)
Lemma token_exchange_witness :
  outcome (getAuthorizationHeader reason_phrase (client_context "InHeader")
             (always token_granted) 0%nat)
  = Return "Bearer abc123"
  /\ outcome (getAuthorizationHeader reason_phrase (client_context "InParams")
                (always (consumed_response false 502)) 0%nat)
     = Throw body_used.
Proof.
  split.
  - exact (proj1 (proj2 (token_exchange reason_phrase (client_context "InHeader")
                           (always token_granted) 0%nat
                           (Some "Basic Y2xpZW50OnMzY3JldCZ4") token_granted
                           eq_refl eq_refl eq_refl eq_refl eq_refl eq_refl))
             (JObj [("access_token", JStr "abc123")]) "abc123"
             eq_refl eq_refl eq_refl ltac:(discriminate)).
  - exact (proj1 (proj2 (proj2 (proj2 (proj2
             (token_exchange reason_phrase (client_context "InParams")
                (always (consumed_response false 502)) 0%nat
                None (consumed_response false 502)
                eq_refl eq_refl eq_refl eq_refl eq_refl eq_refl)))))
             syntax_error body_used eq_refl eq_refl eq_refl).
Defined.

(** X16: once the base address is resolved, [invoke] of the bundle does not
    reach the account endpoint without credentials.  For an account
    identifier that the first console line can convert to text and
    parameters or an environment that give a base address: whenever the
    credential helper throws, [invoke] throws the same error, and its
    effects are its first console line and the effects of the helper alone;
    with no credential configured at all that is the error that lists the
    supported secrets, and no request is sent. *)
Theorem invoke_without_credentials :
  forall statusText (params : Params) (context : Context) (w : World) base,
    getBaseURL params context = Return base ->
    has_text (accountId params) = true ->
    let h := getAuthorizationHeader statusText context w 0%nat in
    let r := run (bundle_invoke statusText params context) w in
    (forall e, outcome h = Throw e ->
               r = mkRun (Throw e) (starting_log (accountId params) :: events h) (calls h))
    /\ (static_credentials context = false ->
        truthy (secret_opt context "OAUTH2_CLIENT_CREDENTIALS_CLIENT_SECRET") = false ->
        r = mkRun (Throw no_authentication) [starting_log (accountId params)] 0).
Proof.
  intros statusText params context w base Hbase _ h r. subst h r.
  pose proof (invoke_resolved_effects (getAuthorizationHeader statusText)
                params context w 0%nat base Hbase) as H.
  cbv zeta in H. unfold run, bundle_invoke, Bundle.invoke. split.
  - intros e He. now rewrite He in H.
  - intros Hs Hsec. rewrite getAuthorizationHeader_client in H by assumption.
    now rewrite Hsec in H.
Qed.

(** An instance of the theorem on missing credentials: empty secrets. *)
Lemma invoke_without_credentials_witness :
  run (bundle_invoke reason_phrase utils_params empty_context) offline
  = mkRun (Throw no_authentication) [starting_log (JStr "acc123")] 0.
Proof.
  exact (proj2 (invoke_without_credentials reason_phrase utils_params empty_context offline
                  "https://example.api.identitynow.com" eq_refl eq_refl)
           eq_refl eq_refl).
Defined.

(** X17: [invoke] of the bundle never waits and sends at most two requests,
    at most one when the secrets hold a credential that needs no exchange;
    the last request is the only one that can go to the account endpoint,
    and the call counter counts exactly the requests. *)
Theorem bundle_invoke_bounds :
  forall statusText (params : Params) (context : Context) (w : World),
    let r := run (bundle_invoke statusText params context) w in
    timeouts (events r) = []
    /\ (length (requests (events r)) <= 2)%nat
    /\ (static_credentials context = true -> (length (requests (events r)) <= 1)%nat)
    /\ calls r = length (requests (events r)).
Proof.
  intros statusText params context w r. subst r.
  unfold run, bundle_invoke, Bundle.invoke.
  destruct (getBaseURL params context) as [base | e] eqn:Hbase.
  - pose proof (invoke_resolved_effects (getAuthorizationHeader statusText)
                  params context w 0%nat base Hbase) as H.
    cbv zeta in H.
    pose proof (credentials_shape statusText context w 0%nat) as Hh.
    cbv zeta in Hh.
    destruct (outcome (getAuthorizationHeader statusText context w 0%nat)) as [a | e].
    + destruct H as (tail & -> & Hq & Ht & ->).
      cbn [starting_log timeouts requests]. rewrite timeouts_app, requests_app.
      cbn [timeouts requests]. rewrite Ht, Hq, !length_app. cbn [length].
      destruct Hh as [[-> ->] | (Hs & req & -> & ->)]; cbn; rewrite ?Hs;
        repeat split; try lia; discriminate.
    + rewrite H. cbn [outcome events calls starting_log timeouts requests].
      destruct Hh as [[-> ->] | (Hs & req & -> & ->)]; cbn; rewrite ?Hs;
        repeat split; try lia; discriminate.
  - unfold Utils.invoke_resolved, console_log. rewrite bind_emit, bind_lift, Hbase.
    cbn. repeat split; lia.
Qed.

(** ** The body of the token request *)

Lemma formEncode_char :
  forall (c : ascii) (rest : string),
    let code := if Ascii.eqb c " " then "+"
                else if formUnescaped c then String c EmptyString
                else percentEncode c in
    formDecode (code +:+ rest) = String c (formDecode rest)
    /\ all_chars no_separator code = true.
Proof.
  intros c rest.
  destruct c as [[] [] [] [] [] [] [] []]; split; reflexivity.
Qed.

Lemma formDecode_encode : forall s, formDecode (formEncode s) = s.
Proof.
  induction s as [| c s IH]; [reflexivity |].
  cbn [formEncode]. destruct (formEncode_char c (formEncode s)) as [-> _].
  now rewrite IH.
Qed.

Lemma formEncode_no_separator : forall s, all_chars no_separator (formEncode s) = true.
Proof.
  induction s as [| c s IH]; [reflexivity |].
  cbn [formEncode]. rewrite all_chars_app, IH.
  destruct (formEncode_char c EmptyString) as [_ ->]. reflexivity.
Qed.

Lemma split_field_pair :
  forall k v, all_chars no_separator k = true -> split_field (k +:+ String "=" v) = (k, v).
Proof.
  induction k as [| c k IH]; intros v H; [reflexivity |].
  cbn [all_chars] in H. apply andb_true_iff in H as [Hc Hk].
  cbn [String.append split_field]. rewrite (IH v Hk).
  unfold no_separator in Hc. apply andb_true_iff in Hc as [_ Hc].
  apply negb_true_iff in Hc. now rewrite Hc.
Qed.

Lemma split_on_whole :
  forall sep s, all_chars (fun c => negb (Ascii.eqb c sep)) s = true -> split_on sep s = [s].
Proof.
  intros sep. induction s as [| c s IH]; [reflexivity |].
  cbn [all_chars split_on]. rewrite andb_true_iff, negb_true_iff. intros [Hc Hs].
  now rewrite Hc, (IH Hs).
Qed.

Lemma split_on_join :
  forall l, l <> [] ->
    Forall (fun s => all_chars (fun c => negb (Ascii.eqb c "&")) s = true) l ->
    split_on "&" (join_ampersands l) = l.
Proof.
  induction l as [| x l IH]; [congruence |]. intros _ Hall.
  apply Forall_cons_1 in Hall as [Hx Hl].
  destruct l as [| y l].
  - now apply split_on_whole.
  - change (join_ampersands (x :: y :: l)) with (x +:+ "&" +:+ join_ampersands (y :: l)).
    cbn [String.append]. rewrite split_on_segment by assumption.
    now rewrite IH.
Qed.

Lemma field_no_ampersand :
  forall k v,
    all_chars (fun c => negb (Ascii.eqb c "&")) (formEncode k +:+ "=" +:+ formEncode v) = true.
Proof.
  intros k v.
  assert (H : forall s, all_chars no_separator s = true ->
                        all_chars (fun c => negb (Ascii.eqb c "&")) s = true).
  { intros s. apply all_chars_impl. intros c Hc. unfold no_separator in Hc.
    now apply andb_true_iff in Hc as [Hc _]. }
  rewrite all_chars_app. cbn [String.append all_chars].
  rewrite !H by apply formEncode_no_separator. reflexivity.
Qed.

Lemma parse_form_toString :
  forall params, params <> [] -> parse_form (URLSearchParams_toString params) = params.
Proof.
  intros params Hne. unfold parse_form, URLSearchParams_toString.
  rewrite split_on_join.
  - rewrite map_map. rewrite <- (map_id params) at 2. apply map_ext.
    intros [k v]. cbn [fst snd]. cbn [String.append].
    rewrite split_field_pair by apply formEncode_no_separator.
    now rewrite !formDecode_encode.
  - destruct params; [congruence | discriminate].
  - apply Forall_map, Forall_forall. intros [k v] _. apply field_no_ampersand.
Qed.

(** X18: the body of the token request reads back as the fields the code
    appended.  Whatever characters the scope, the audience, the client
    identifier and the client secret hold, splitting the body at [&] and [=]
    and decoding gives exactly [grant_type], then the scope and the audience
    that are set, then identifier and secret when they go in the
    parameters: no value can add a field or change another one.  The secret
    is a field of the body exactly when the style is [InParams], which is
    exactly when the request has no [Authorization] header. *)
Theorem token_body_reads_back :
  forall (config : OAuth2Config) (authorization : option string),
    parse_form (body (token_request config authorization)) = token_params config
    /\ header "grant_type" (token_params config) = Some "client_credentials"
    /\ header "client_secret" (token_params config)
       = (if is_InParams (authStyle config) then Some (ToString (clientSecret config))
          else None)
    /\ header "Authorization" (headers (token_request config authorization)) = authorization
    /\ (token_authorization config = Return authorization ->
        authorization = None <-> is_InParams (authStyle config) = true).
Proof.
  intros config authorization. repeat split.
  - apply parse_form_toString. discriminate.
  - unfold token_params.
    destruct (truthy (scope config)), (truthy (audience config)),
      (is_InParams (authStyle config)); reflexivity.
  - destruct authorization; reflexivity.
  - intros ->. unfold token_authorization in H.
    destruct (is_InParams (authStyle config)); [reflexivity |].
    destruct (btoa _); discriminate H.
  - intros Hstyle. unfold token_authorization in H. rewrite Hstyle in H. congruence.
Qed.

(** An instance of the theorem on the body: a secret with an ampersand. *)
Lemma token_body_reads_back_witness :
  parse_form "grant_type=client_credentials&scope=read+write&client_id=client&client_secret=s3cret%26x"
  = [("grant_type", "client_credentials"); ("scope", "read write");
     ("client_id", "client"); ("client_secret", "s3cret&x")]
  /\ (@None string = None <-> true = true).
Proof.
  split.
  - exact (proj1 (token_body_reads_back
                    (client_credentials_config (client_context "InParams")) None)).
  - exact (proj2 (proj2 (proj2 (proj2 (token_body_reads_back
                    (client_credentials_config (client_context "InParams")) None))))
             eq_refl).
Defined.
